(** * RAG-APP: the retrieval-augmented generation engine

    A shallow embedding of [app/core/rag_engine.py], [app/core/ingestion.py],
    [app/core/chat.py] and [app/ingestion/web_loader.py], and the properties
    of the engine stated in the specification.

    Conventions of the embedding.
    - A Python [dict] with string keys is a [gmap string _]; a [set] of
      strings is a [gset string].  Insertion order of dictionaries is not
      observed by any function embedded here.
    - Metadata values are the scalars Chroma accepts: [str], [int],
      [float], [bool].  A float is an exact rational ([Qc]); rounding is
      not modelled.
    - Mutable attributes of the engine are fields of the record
      [RAGEngine]; a method is a function from the engine to a result and
      the engine after the call.  An exception leaves the mutations made
      before it in place, as in Python.
    - What the vector store, the file system, the network, the clock and
      [uuid] return is supplied by an environment record, one per call.
      The failures the handlers of the source are written for are faults
      of the environment: a reader or a fetch that raises, a write to the
      vector store that raises, a registry file that cannot be written.
      The construction of the engine is taken to succeed.
    - Every [Document] owns its metadata dictionary, as the documents
      built by [split_text_into_documents] do ([{**metadata, ...}] makes a
      new dictionary per chunk). *)

From Stdlib Require Import String Ascii ZArith QArith Qcanon DecimalString.
From stdpp Require Import base gmap strings list sets numbers.
From Stdlib Require DecimalPos DecimalZ.

Open Scope string_scope.
Open Scope list_scope.

(** ** Python values, truthiness, exceptions *)

Module Py.

Inductive value : Type :=
| VStr (s : string)
| VInt (z : Z)
| VFloat (q : Qc)
| VBool (b : bool).

#[global] Instance value_eq_dec : EqDecision value.
Proof. solve_decision. Defined.

(** [bool(v)] *)
Definition truthy (v : value) : bool :=
  match v with
  | VStr s => negb (String.eqb s "")
  | VInt z => negb (Z.eqb z 0)
  | VFloat q => negb (bool_decide (q = 0%Qc))
  | VBool b => b
  end.

(** [bool(d.get(k))]: a missing key gives [None], which is falsy. *)
Definition get_truthy (d : gmap string value) (k : string) : bool :=
  match d !! k with
  | Some v => truthy v
  | None => false
  end.

(** The number a value stands for in arithmetic ([bool] is a subclass of
    [int]); a [str] has none and [0 + s] raises [TypeError]. *)
Definition number (v : value) : option Qc :=
  match v with
  | VInt z => Some (Q2Qc (inject_Z z))
  | VFloat q => Some q
  | VBool b => Some (if b then 1%Qc else 0%Qc)
  | VStr _ => None
  end.

Definition str_of_nat (n : nat) : string := NilZero.string_of_uint (Nat.to_uint n).
Definition str_of_Z (z : Z) : string := NilZero.string_of_int (Z.to_int z).

(** [str(v)] as used by an f-string.  The text of a float is left to
    [float_repr]. *)
Definition str (float_repr : Qc → string) (v : value) : string :=
  match v with
  | VStr s => s
  | VInt z => str_of_Z z
  | VFloat q => float_repr q
  | VBool b => if b then "True" else "False"
  end.

Inductive exn : Type :=
| ValueError (msg : string)
| TypeError (msg : string)
| OtherError (msg : string).

Inductive outcome (A : Type) : Type :=
| Ok (a : A)
| Raise (e : exn).
#[global] Arguments Ok {A} a.
#[global] Arguments Raise {A} e.

(** ASCII part of [str.isspace], [str.strip] tested for emptiness, and
    [str.lower]. *)
Definition is_space (c : ascii) : bool :=
  let n := nat_of_ascii c in
  (Nat.leb 9 n && Nat.leb n 13) || (Nat.leb 28 n && Nat.leb n 32).

Fixpoint all_space (s : string) : bool :=
  match s with
  | EmptyString => true
  | String c s' => is_space c && all_space s'
  end.

(** [bool(s.strip())] *)
Definition strip_truthy (s : string) : bool := negb (all_space s).

Definition lower_ascii (c : ascii) : ascii :=
  let n := nat_of_ascii c in
  if Nat.leb 65 n && Nat.leb n 90 then ascii_of_nat (n + 32) else c.

Fixpoint lower (s : string) : string :=
  match s with
  | EmptyString => EmptyString
  | String c s' => String (lower_ascii c) (lower s')
  end.

(** [sep.join(l)] *)
Fixpoint join (sep : string) (l : list string) : string :=
  match l with
  | [] => ""
  | [x] => x
  | x :: rest => x +:+ sep +:+ join sep rest
  end.

End Py.
Import Py.

(** ** Data model *)

(** [langchain.schema.Document] *)
Record Document : Type := mkDocument {
  page_content : string;
  metadata : gmap string value
}.

#[global] Instance Document_eq_dec : EqDecision Document.
Proof. solve_decision. Defined.

(** [document_metadata.json] in the persistence directory: missing, not
    loadable as JSON, or holding a registry. *)
Inductive json_file : Type :=
| Missing
| Unreadable
| Stored (registry : gmap string (gmap string value)).

(** The attributes of [RAGEngine] that its methods read and write, with the
    two things that live in the persistence directory: the Chroma
    collection ([vector_store], id to document) and the metadata file. *)
Record RAGEngine : Type := mkEngine {
  current_web_ids : gset string;
  latest_document_id : option string;
  document_metadata : gmap string (gmap string value);
  vector_store : gmap string Document;
  memory : list (string * string);
  metadata_file : json_file
}.

Definition set_current_web_ids (s : gset string) (self : RAGEngine) : RAGEngine :=
  mkEngine s (latest_document_id self) (document_metadata self)
           (vector_store self) (memory self) (metadata_file self).
Definition set_latest_document_id (l : option string) (self : RAGEngine) : RAGEngine :=
  mkEngine (current_web_ids self) l (document_metadata self)
           (vector_store self) (memory self) (metadata_file self).
Definition set_document_metadata (r : gmap string (gmap string value)) (self : RAGEngine) : RAGEngine :=
  mkEngine (current_web_ids self) (latest_document_id self) r
           (vector_store self) (memory self) (metadata_file self).
Definition set_vector_store (v : gmap string Document) (self : RAGEngine) : RAGEngine :=
  mkEngine (current_web_ids self) (latest_document_id self) (document_metadata self)
           v (memory self) (metadata_file self).
Definition set_memory (m : list (string * string)) (self : RAGEngine) : RAGEngine :=
  mkEngine (current_web_ids self) (latest_document_id self) (document_metadata self)
           (vector_store self) m (metadata_file self).
Definition set_metadata_file (f : json_file) (self : RAGEngine) : RAGEngine :=
  mkEngine (current_web_ids self) (latest_document_id self) (document_metadata self)
           (vector_store self) (memory self) f.

(** ** The Chroma collection *)

(** [collection.upsert(ids, documents)]: entries are written in order, a
    later entry with the same id replaces an earlier one. *)
Definition upsert (entries : list (string * Document)) (vs : gmap string Document)
  : gmap string Document :=
  foldl (λ acc e, <[e.1 := e.2]> acc) vs entries.

(** [collection.delete(ids=...)]; an id that is not stored is ignored. *)
Definition delete_ids (ids : list string) (vs : gmap string Document)
  : gmap string Document :=
  foldr delete vs ids.

(** ** Engine construction and the registry file (rag_engine.py:26-193) *)

(** [_load_document_metadata]: the registry is read when the file exists
    and loads; otherwise it stays (or is reset to) the empty dictionary. *)
Definition _load_document_metadata (self : RAGEngine) : RAGEngine :=
  match metadata_file self with
  | Missing => self
  | Unreadable => set_document_metadata ∅ self
  | Stored r => set_document_metadata r self
  end.

(** [RAGEngine.__init__] against a persistence directory holding the
    collection [store] and the metadata file [file]. *)
Definition __init__ (store : gmap string Document) (file : json_file) : RAGEngine :=
  _load_document_metadata (mkEngine ∅ None ∅ store [] file).

(** What can go wrong in [_save_document_metadata]: [open(path, 'w')]
    raises and the file is as before, or [json.dump] raises after the file
    was truncated. *)
Inductive save_fault : Type := SaveOk | OpenFails | DumpFails.

(** [_save_document_metadata]: the registry is rewritten whole; a failure
    is logged and not raised. *)
Definition _save_document_metadata (fault : save_fault) (self : RAGEngine) : RAGEngine :=
  match fault with
  | SaveOk => set_metadata_file (Stored (document_metadata self)) self
  | OpenFails => self
  | DumpFails => set_metadata_file Unreadable self
  end.

(** ** Adding documents (rag_engine.py:195-231) *)

(** What one call of [add_documents] gets from outside the engine. *)
Record AddEnv : Type := mkAddEnv {
  uuid4 : string;                 (* str(uuid.uuid4()) *)
  now : string;                   (* str(datetime.datetime.now()) *)
  chroma_id : nat → string;       (* the id Chroma gives the i-th document *)
  add_raises : option exn;        (* vector_store.add_documents fails *)
  save_fails : save_fault
}.

(** A dictionary is falsy when it is [None] or empty. *)
Definition dict_truthy (metadata : option (gmap string value)) : bool :=
  match metadata with
  | Some m => negb (bool_decide (m = ∅))
  | None => false
  end.

(** The body of the loop over [documents]: the two reserved keys are
    assigned first, then [doc.metadata.update(metadata)] runs, so a key of
    [metadata] replaces a key written before it. *)
Definition stamp (source_type doc_id : string) (metadata : option (gmap string value))
    (doc : Document) : Document :=
  let 'mkDocument content doc_metadata := doc in
  let md := <["document_id" := VStr doc_id]>
              (<["source_type" := VStr source_type]> doc_metadata) in
  mkDocument content
    (if dict_truthy metadata then default ∅ metadata ∪ md else md).

(** The registry entry [{"source_type": ..., "timestamp": ..., **(metadata or {})}]. *)
Definition registry_entry (source_type timestamp : string)
    (metadata : option (gmap string value)) : gmap string value :=
  default ∅ metadata ∪
    <["timestamp" := VStr timestamp]> {["source_type" := VStr source_type]}.

(** The documents as [vector_store.add_documents(documents)] stores them,
    each under the id Chroma generates for it. *)
Definition stored_units (env : AddEnv) (documents : list Document)
  : list (string * Document) :=
  imap (λ i d, (chroma_id env i, d)) documents.

Definition add_documents (env : AddEnv) (documents : list Document)
    (source_type : string) (metadata : option (gmap string value))
    (self : RAGEngine) : outcome unit * RAGEngine :=
  let doc_id := uuid4 env in
  let documents := stamp source_type doc_id metadata <$> documents in
  let self := set_document_metadata
                (<[doc_id := registry_entry source_type (now env) metadata]>
                   (document_metadata self)) self in
  let self := set_latest_document_id (Some doc_id) self in
  match add_raises env with
  | Some e => (Raise e, self)
  | None =>
      let self := set_vector_store
                    (upsert (stored_units env documents) (vector_store self)) self in
      (Ok (), _save_document_metadata (save_fails env) self)
  end.

(** ** Eviction of the previous web batch (rag_engine.py:273-293) *)

(** [vector_store.get()['ids']] filtered to the ids outside the tracked
    set. *)
Definition docs_to_keep (self : RAGEngine) : list string :=
  filter (λ idx, idx ∉ current_web_ids self) (elements (dom (vector_store self))).

(** [get_or_delete_raises] is a failure of [vector_store.get()] or of the
    collection's [delete]; the handler logs it, and the tracked set is then
    not cleared.  The deletion is guarded by [if docs_to_keep:]. *)
Definition _cleanup_web_results (get_or_delete_raises : bool) (self : RAGEngine)
  : RAGEngine :=
  if bool_decide (current_web_ids self = ∅) then self
  else if get_or_delete_raises then self
  else
    let self :=
      match docs_to_keep self with
      | [] => self
      | _ :: _ =>
          set_vector_store
            (delete_ids (elements (current_web_ids self)) (vector_store self)) self
      end in
    set_current_web_ids ∅ self.

(** ** Ingestion (app/core/ingestion.py, app/ingestion/web_loader.py) *)

Definition nl : string := String (ascii_of_nat 10) "".

Record Path : Type := mkPath {
  path_name : string;      (* file_path.name *)
  path_suffix : string;    (* file_path.suffix *)
  path_str : string        (* str(file_path) *)
}.

(** What the readers used by the file processors return for a path. *)
Record FileSystem : Type := mkFileSystem {
  read : Path → outcome string;                  (* open(p).read() *)
  fitz_pages : Path → outcome (list string);     (* page.get_text() of each page *)
  docx_paragraphs : Path → outcome (list string);
  image_to_string : Path → outcome string;       (* pytesseract on Image.open(p) *)
  getsize : Path → Z
}.

(** The response of [session.get(url)] as [ingest_web_page] uses it: the
    status, the text left once tags are dropped and blanks collapsed, and
    [soup.title.string] when the page has a title. *)
Record WebPage : Type := mkWebPage {
  status : Z;
  text : string;
  title : option string
}.

Record WebEnv : Type := mkWebEnv {
  cleanup_raises : bool;
  response : outcome WebPage;
  web_add_raises : option exn       (* vector_store.add_documents fails *)
}.

(** What [process_webpage] extracts from a fetched page. *)
Record Soup : Type := mkSoup {
  main_content : string;            (* extract_main_content(soup) *)
  page_title : string;              (* get_page_title(soup) *)
  internal_links : list string      (* get_internal_links(soup, url) *)
}.

Definition web_id (url : string) (i : nat) : string :=
  "web_" +:+ url +:+ "_" +:+ str_of_nat i.

Section Ingestion.

(** [RecursiveCharacterTextSplitter(chunk_size=1000, chunk_overlap=200,
    length_function=len, separators=["\n\n", "\n", " ", ""]).split_text],
    a function of the LangChain library. *)
Variable split_text : string → list string.

Definition split_text_into_documents (text : string) (metadata : gmap string value)
  : list Document :=
  imap (λ i chunk,
          mkDocument chunk
            (<["chunk_size" := VInt (Z.of_nat (String.length chunk))]>
               (<["chunk" := VInt (Z.of_nat i)]> metadata)))
       (split_text text).

Definition file_metadata (file_type : string) (file_path : Path) : gmap string value :=
  {[ "file" := VStr (path_name file_path);
     "file_type" := VStr file_type;
     "source" := VStr (path_str file_path) ]}.

Definition process_text_file (fs : FileSystem) (file_path : Path)
  : outcome (list Document) :=
  match read fs file_path with
  | Raise e => Raise e
  | Ok text => Ok (split_text_into_documents text (file_metadata "txt" file_path))
  end.

Definition process_pdf_file (fs : FileSystem) (file_path : Path)
  : outcome (list Document) :=
  match fitz_pages fs file_path with
  | Raise e => Raise e
  | Ok pages =>
      Ok (concat (imap (λ page_num text,
                          if strip_truthy text then
                            split_text_into_documents text
                              (<["page" := VInt (Z.of_nat page_num + 1)]>
                                 (file_metadata "pdf" file_path))
                          else []) pages))
  end.

Definition process_docx_file (fs : FileSystem) (file_path : Path)
  : outcome (list Document) :=
  match docx_paragraphs fs file_path with
  | Raise e => Raise e
  | Ok paragraphs =>
      Ok (split_text_into_documents
            (join (nl +:+ nl) (filter (λ p, strip_truthy p = true) paragraphs))
            (file_metadata "docx" file_path))
  end.

Definition process_image_file (fs : FileSystem) (file_path : Path)
  : outcome (list Document) :=
  match image_to_string fs file_path with
  | Raise e => Raise e
  | Ok text =>
      Ok (if strip_truthy text
          then [mkDocument text (file_metadata "image" file_path)]
          else [])
  end.

(** The table of processors keyed by the lower-cased extension; an
    extension outside the table raises [ValueError], which the handler logs
    and raises again. *)
Definition process_file (fs : FileSystem) (file_path : Path) : outcome (list Document) :=
  let extension := lower (path_suffix file_path) in
  if String.eqb extension ".txt" || String.eqb extension ".md" then
    process_text_file fs file_path
  else if String.eqb extension ".pdf" then process_pdf_file fs file_path
  else if String.eqb extension ".docx" then process_docx_file fs file_path
  else if String.eqb extension ".png" || String.eqb extension ".jpg"
          || String.eqb extension ".jpeg" then process_image_file fs file_path
  else Raise (ValueError ("Unsupported file type: " +:+ extension)).

(** [ingest_file] returns [True] when the documents were added, [False]
    when nothing was extracted, and [False] as well when anything above
    raised: its handler logs the exception and returns. *)
Definition ingest_file (fs : FileSystem) (ingestion_time : string) (env : AddEnv)
    (file_path : Path) (self : RAGEngine) : bool * RAGEngine :=
  match process_file fs file_path with
  | Raise _ => (false, self)
  | Ok [] => (false, self)
  | Ok documents =>
      let metadata : gmap string value :=
        {[ "file" := VStr (path_name file_path);
           "source" := VStr (path_str file_path);
           "ingestion_time" := VStr ingestion_time;
           "file_type" := VStr (lower (path_suffix file_path));
           "file_size" := VInt (getsize fs file_path);
           "total_chunks" := VInt (Z.of_nat (length documents)) ]} in
      match add_documents env documents "file" (Some metadata) self with
      | (Ok _, self) => (true, self)
      | (Raise _, self) => (false, self)
      end
  end.

(** The ids and documents [ingest_web_page] builds from the chunks. *)
Definition web_doc_ids (url : string) (chunks : list string) : list string :=
  imap (λ i _, web_id url i) chunks.

Definition web_documents (url : string) (page : WebPage) (chunks : list string)
  : list Document :=
  imap (λ i chunk,
          mkDocument chunk
            {[ "source" := VStr "web";
               "url" := VStr url;
               "chunk" := VInt (Z.of_nat i);
               "title" := VStr (default url (title page));
               "id" := VStr (web_id url i) ]})
       chunks.

(** [ingest_web_page]: the previous batch is cleaned up first, then the
    page is fetched; the documents go to the vector store under their own
    ids, not through [add_documents]. *)
Definition ingest_web_page (env : WebEnv) (url : string) (self : RAGEngine)
  : bool * RAGEngine :=
  let self := _cleanup_web_results (cleanup_raises env) self in
  match response env with
  | Raise _ => (false, self)
  | Ok page =>
      if negb (Z.eqb (status page) 200) then (false, self)
      else
        let chunks := split_text (text page) in
        let doc_ids := web_doc_ids url chunks in
        let documents := web_documents url page chunks in
        match web_add_raises env with
        | Some _ => (false, self)
        | None =>
            let self := set_vector_store
                          (upsert (zip doc_ids documents) (vector_store self)) self in
            (true, set_current_web_ids
                     (current_web_ids self ∪ list_to_set doc_ids) self)
        end
  end.

(** [process_webpage] of web_loader.py.  [get_content is_dynamic url] is
    the fetch and parse of one page.  The set of visited urls is one object
    shared by the whole crawl, so it is threaded through the calls. *)
Fixpoint process_webpage (get_content : bool → string → outcome Soup)
    (is_dynamic : bool) (max_depth : nat) (url : string) (visited_urls : gset string)
  : list Document * gset string :=
  if bool_decide (url ∈ visited_urls) then ([], visited_urls)
  else
    let visited_urls := {[url]} ∪ visited_urls in
    match get_content is_dynamic url with
    | Raise _ => ([], visited_urls)
    | Ok soup =>
        let metadata : gmap string value :=
          {[ "url" := VStr url;
             "title" := VStr (page_title soup);
             "is_dynamic" := VBool is_dynamic ]} in
        let documents : list Document :=
          (λ chunk, mkDocument chunk metadata) <$>
            filter (λ chunk, strip_truthy chunk = true)
                   (split_text (main_content soup)) in
        match max_depth with
        | S (S _ as depth') =>
            foldl (λ (acc : list Document * gset string) link,
                     if bool_decide (link ∈ acc.2) then acc
                     else
                       let sub := process_webpage get_content is_dynamic depth' link acc.2 in
                       ((acc.1 ++ sub.1)%list, sub.2))
                  (documents, visited_urls) (internal_links soup)
        | _ => (documents, visited_urls)
        end
    end.

End Ingestion.

(** ** Answering a question (rag_engine.py:295-376, chat.py:7-59) *)

(** An entry of [response["sources"]]: the dictionary [source_info] with
    its four scalar keys, and the key ["metadata"] when it was attached. *)
Record Citation : Type := mkCitation {
  src_file : value;
  src_chunk : value;
  src_page : value;
  src_relevance : value;
  src_metadata : option (gmap string value)
}.

(** [source.get(key)] for a key read as a scalar. *)
Definition citation_get (source : Citation) (key : string) : option value :=
  if String.eqb key "file" then Some (src_file source)
  else if String.eqb key "chunk" then Some (src_chunk source)
  else if String.eqb key "page" then Some (src_page source)
  else if String.eqb key "relevance" then Some (src_relevance source)
  else None.

(** The dictionary [query] returns; ["confidence"] is a key that one of the
    return statements does not set. *)
Record Response : Type := mkResponse {
  answer : string;
  sources : list Citation;
  confidence : option Qc
}.

(** An entry of the sources [chat] returns: its scalar keys, and the
    registry entry under ["metadata"] when attached. *)
Record ChatSource : Type := mkChatSource {
  chat_fields : gmap string value;
  chat_metadata : option (gmap string value)
}.

Record ChatResponse : Type := mkChatResponse {
  chat_answer : string;
  chat_sources : list ChatSource;
  chat_confidence : option Qc
}.

Definition no_documents_message : string :=
  "No documents have been uploaded yet. Please upload a document first.".

Definition no_information_message : string :=
  "I could not find any relevant information in the available documents to answer your question. Please try rephrasing your question or ensure that the relevant document has been uploaded.".

Section Query.

Variable float_repr : Qc → string.

(** The retriever built by [vector_store.as_retriever] with
    [search_type="mmr"], [k=6], [fetch_k=10], [lambda_mult=0.7] and the
    given filter: the documents it returns for a question asked with the
    given chat history. *)
Variable search :
  option (gmap string value) → gmap string Document → list (string * string) →
  string → list Document.

(** The language model called by the chain on the question, the retrieved
    documents and the chat history. *)
Variable generate : string → list Document → list (string * string) → outcome string.

(** Modelled from the spec: [self.chain.ainvoke({"question": question})],
    a call into LangChain's [ConversationalRetrievalChain], which is not
    part of the sources.  Steps 2 to 5 of section 4.5: retrieve with the
    filter, call the model on the question, the retrieved documents and the
    history, and, only when the model answered, append the turn to the
    memory; the chain is built with [return_source_documents=True], so the
    retrieved documents come back with the answer. *)
Definition chain_ainvoke (filter : option (gmap string value)) (question : string)
    (self : RAGEngine) : outcome (string * list Document) * RAGEngine :=
  let source_documents := search filter (vector_store self) (memory self) question in
  match generate question source_documents (memory self) with
  | Raise e => (Raise e, self)
  | Ok text =>
      (Ok (text, source_documents),
       set_memory (memory self ++ [(question, text)])%list self)
  end.

(** Lines 303-312: [None] is the early return; otherwise the filter to
    use. *)
Definition resolve_latest (self : RAGEngine) (source_filter : option (gmap string value))
  : option (option (gmap string value)) :=
  if dict_truthy source_filter && get_truthy (default ∅ source_filter) "latest" then
    match latest_document_id self with
    | Some id =>
        if truthy (VStr id) then Some (Some {["document_id" := VStr id]}) else None
    | None => None
    end
  else Some source_filter.

(** [f"{doc.metadata.get('file', '')}_{doc.metadata.get('chunk', '')}"] *)
Definition chunk_id (doc : Document) : string :=
  str float_repr (default (VStr "") (metadata doc !! "file")) +:+ "_" +:+
  str float_repr (default (VStr "") (metadata doc !! "chunk")).

(** The registry entry attached to a citation:
    [doc_id and doc_id in self.document_metadata].  The keys of the registry
    are strings, so only a non-empty string can be one of them. *)
Definition owner_metadata (registry : gmap string (gmap string value)) (doc : Document)
  : option (gmap string value) :=
  match metadata doc !! "document_id" with
  | Some (VStr doc_id) => if truthy (VStr doc_id) then registry !! doc_id else None
  | _ => None
  end.

Definition source_info (registry : gmap string (gmap string value)) (doc : Document)
  : Citation :=
  mkCitation (default (VStr "") (metadata doc !! "file"))
             (default (VStr "") (metadata doc !! "chunk"))
             (default (VStr "") (metadata doc !! "page"))
             (default (VFloat 1%Qc) (metadata doc !! "relevance"))
             (owner_metadata registry doc).

(** The loop over [result["source_documents"]] with its set
    [seen_chunks]. *)
Fixpoint process_sources (registry : gmap string (gmap string value))
    (seen_chunks : gset string) (source_documents : list Document) : list Citation :=
  match source_documents with
  | [] => []
  | doc :: rest =>
      if bool_decide (chunk_id doc ∈ seen_chunks) then
        process_sources registry seen_chunks rest
      else
        source_info registry doc ::
          process_sources registry ({[chunk_id doc]} ∪ seen_chunks) rest
  end.

(** [sum(s.get("relevance", 0) for s in sources)]: [None] when an addend is
    not a number and the addition raises [TypeError]. *)
Definition relevance_sum (sources : list Citation) : option Qc :=
  foldl (λ acc s,
           match acc, number (src_relevance s) with
           | Some total, Some r => Some (total + r)%Qc
           | _, _ => None
           end)
        (Some 0%Qc) sources.

Definition query (question : string) (source_filter : option (gmap string value))
    (self : RAGEngine) : outcome Response * RAGEngine :=
  match resolve_latest self source_filter with
  | None => (Ok (mkResponse no_documents_message [] None), self)
  | Some source_filter =>
      let filter := if dict_truthy source_filter then source_filter else None in
      match chain_ainvoke filter question self with
      | (Raise e, self) => (Raise e, self)
      | (Ok (text, source_documents), self) =>
          let sources := process_sources (document_metadata self) ∅ source_documents in
          match sources with
          | [] =>
              (Ok (mkResponse
                     (if String.eqb text "" then no_information_message else text)
                     [] (Some 0%Qc)), self)
          | _ :: _ =>
              match relevance_sum sources with
              | None => (Raise (TypeError "unsupported operand type(s) for +"), self)
              | Some total =>
                  (Ok (mkResponse text sources
                         (Some (total / Q2Qc (inject_Z (Z.of_nat (length sources))))%Qc)),
                   self)
              end
          end
      end
  end.

(** The entry [chat] builds from one source of [query].  The keys it reads
    with [source.get] are looked up in what [query] put there. *)
Definition chat_source (registry : gmap string (gmap string value)) (source : Citation)
  : ChatSource :=
  if bool_decide (citation_get source "source_type" = Some (VStr "web")) then
    mkChatSource
      {[ "type" := VStr "web";
         "url" := default (VStr "") (citation_get source "url");
         "title" := default (VStr "") (citation_get source "title");
         "relevance" := default (VFloat 1%Qc) (citation_get source "relevance") ]}
      None
  else
    mkChatSource
      {[ "type" := VStr "document";
         "file" := default (default (VStr "") (citation_get source "source"))
                           (citation_get source "file");
         "page" := default (default (VStr "") (citation_get source "page_number"))
                           (citation_get source "page");
         "document_id" := default (VStr "") (citation_get source "document_id");
         "relevance" := default (VFloat 1%Qc) (citation_get source "relevance") ]}
      (match citation_get source "document_id" with
       | Some (VStr doc_id) => registry !! doc_id
       | _ => None
       end).

(** [chat]: the answer and the sources of [query] are copied into a new
    dictionary; ["confidence"] is set only when no source is left, and the
    answer is then replaced. *)
Definition chat (question : string) (source_filter : option (gmap string value))
    (rag_engine : RAGEngine) : outcome ChatResponse * RAGEngine :=
  match query question source_filter rag_engine with
  | (Raise e, rag_engine) => (Raise e, rag_engine)
  | (Ok response, rag_engine) =>
      let formatted := chat_source (document_metadata rag_engine) <$> sources response in
      match formatted with
      | [] => (Ok (mkChatResponse no_information_message [] (Some 0%Qc)), rag_engine)
      | _ :: _ => (Ok (mkChatResponse (answer response) formatted None), rag_engine)
      end
  end.

End Query.

(** ** Notions used to state the properties of [query] *)

(** The arithmetic mean of a sequence of scores. *)
Definition arithmetic_mean (scores : list Qc) : Qc :=
  (foldr Qcplus 0 scores / Q2Qc (inject_Z (Z.of_nat (length scores))))%Qc.

(** The composite key of a citation: its file and its chunk locator, as
    [chunk_id] combines them. *)
Definition citation_key (float_repr : Qc → string) (c : Citation) : string :=
  str float_repr (src_file c) +:+ "_" +:+ str float_repr (src_chunk c).

(** The documents of the retrieval that [process_sources] turns into
    citations. *)
Fixpoint kept_documents (float_repr : Qc → string) (seen_chunks : gset string)
    (source_documents : list Document) : list Document :=
  match source_documents with
  | [] => []
  | doc :: rest =>
      if bool_decide (chunk_id float_repr doc ∈ seen_chunks) then
        kept_documents float_repr seen_chunks rest
      else
        doc :: kept_documents float_repr
                 ({[chunk_id float_repr doc]} ∪ seen_chunks) rest
  end.

(** The documents the chain retrieves for a resolved filter: [query] passes
    the filter to the retriever only when it is truthy. *)
Definition retrieved
    (search : option (gmap string value) → gmap string Document →
              list (string * string) → string → list Document)
    (resolved : option (gmap string value)) (question : string)
    (self : RAGEngine) : list Document :=
  search (if dict_truthy resolved then resolved else None)
         (vector_store self) (memory self) question.

(** A document matches a filter when it has every key of the filter with
    the same value. *)
Definition matches (filter : option (gmap string value)) (doc : Document) : Prop :=
  match filter with
  | Some f => map_Forall (λ k v, metadata doc !! k = Some v) f
  | None => True
  end.

#[global] Instance matches_dec filter doc : Decision (matches filter doc).
Proof. destruct filter; simpl; apply _. Defined.

(** ** The chunker *)

(** The sources configure LangChain's [RecursiveCharacterTextSplitter]
    ([get_text_splitter]) and call its [split_text]; the splitter itself is
    not part of them.  This module is a model of it written from section
    4.1 of the specification.  The functions of the ingestion above take
    the splitter as a parameter and do not depend on this model. *)

Module Chunker.

(** The separators in priority order, as [get_text_splitter] lists them:
    paragraph boundary, line boundary, space, and the empty separator that
    stands for a cut after each character (ingestion.py:20-27). *)
Definition separators : list string := [nl +:+ nl; nl; " "; ""].

(** Modelled from the spec: the length of a run of pieces, for the
    splitter that is missing from the sources. *)
Definition total_length (l : list string) : nat :=
  foldr (λ s n, String.length s + n) 0 l.

(** Modelled from the spec: the cut of a text at a boundary, for the
    splitter that is missing from the sources.  The pieces of [s] between
    occurrences of [sep], each occurrence kept at the head of the piece
    that follows it, so that the pieces put end to end are [s].  [skip]
    counts the characters of a separator just matched that are still to be
    copied; [current] is the piece being built. *)
Fixpoint cut_on (sep : string) (skip : nat) (current : string) (s : string)
  : list string :=
  match s with
  | EmptyString => if String.eqb current "" then [] else [current]
  | String c s' =>
      match skip with
      | S k => cut_on sep k (current +:+ String c "") s'
      | O =>
          if String.prefix sep s && negb (String.eqb current "") then
            current :: cut_on sep (String.length sep - 1) (String c "") s'
          else if String.prefix sep s then
            cut_on sep (String.length sep - 1) (current +:+ String c "") s'
          else cut_on sep 0 (current +:+ String c "") s'
      end
  end.

(** Modelled from the spec: the hard character cut, for the splitter that
    is missing from the sources. *)
Fixpoint characters (s : string) : list string :=
  match s with
  | EmptyString => []
  | String c s' => String c "" :: characters s'
  end.

(** Modelled from the spec: the text splitter itself, which is LangChain's
    [RecursiveCharacterTextSplitter] and not part of the sources; section
    4.1 describes it.  A text is cut on the first separator of the list,
    and each piece still longer than [target_size] is cut again on the
    separators after it, down to single characters; a piece of at most
    [target_size] characters is not cut further. *)
Fixpoint pieces (target_size : nat) (seps : list string) (text : string) : list string :=
  if String.eqb text "" then []
  else if Nat.leb (String.length text) target_size then [text]
  else
    match seps with
    | [] => characters text
    | sep :: narrower =>
        if String.eqb sep "" then characters text
        else concat (pieces target_size narrower <$> cut_on sep 0 "" text)
    end.

(** Modelled from the spec: the overlap between adjacent chunks, for the
    splitter that is missing from the sources.  The longest tail of
    [current] of at most [overlap] characters that still leaves room for a
    piece of [incoming] characters. *)
Fixpoint overlap_tail (target_size overlap incoming : nat) (current : list string)
  : list string :=
  match current with
  | [] => []
  | p :: rest =>
      if Nat.leb (total_length current) overlap
         && Nat.leb (total_length current + incoming) target_size
      then current
      else overlap_tail target_size overlap incoming rest
  end.

(** Modelled from the spec: the packing of pieces into chunks of section
    4.1, absent from the sources with the splitter.  Pieces are gathered in
    order while the chunk stays within [target_size]; a chunk that is full
    is emitted and the next one starts with the tail of it that fits in
    [overlap] characters. *)
Fixpoint merge (target_size overlap : nat) (current : list string) (rest : list string)
  : list string :=
  match rest with
  | [] => match current with [] => [] | _ :: _ => [String.concat "" current] end
  | p :: rest' =>
      if Nat.leb (total_length current + String.length p) target_size then
        merge target_size overlap (current ++ [p])%list rest'
      else
        match current with
        | [] => p :: merge target_size overlap [] rest'
        | _ :: _ =>
            String.concat "" current ::
              merge target_size overlap
                (overlap_tail target_size overlap (String.length p) current ++ [p])%list
                rest'
        end
  end.

(** Modelled from the spec: [split(text, target_size, overlap)] of section
    4.1, which the sources delegate to LangChain. *)
Definition split (text : string) (target_size overlap : nat) : list string :=
  merge target_size overlap [] (pieces target_size separators text).

(** The splitter as [get_text_splitter] configures it. *)
Definition split_text (text : string) : list string := split text 1000 200.

End Chunker.

(** ** The rest of the engine, and runs of it *)

(** [clear_memory] (rag_engine.py:378-386): the conversation buffer is
    emptied. *)
Definition clear_memory (self : RAGEngine) : RAGEngine := set_memory [] self.

(** [clear_chat_history] (chat.py:61-72): [rag_engine.chain.memory] is the
    buffer the engine passed to the chain, [self.memory]. *)
Definition clear_chat_history (rag_engine : RAGEngine) : RAGEngine :=
  clear_memory rag_engine.

(** One call on the engine, with what the call gets from outside. *)
Inductive operation : Type :=
| AddDocuments (env : AddEnv) (documents : list Document) (source_type : string)
               (metadata : option (gmap string value))
| IngestFile (fs : FileSystem) (ingestion_time : string) (env : AddEnv)
             (file_path : Path)
| IngestWebPage (env : WebEnv) (url : string)
| Chat (question : string) (source_filter : option (gmap string value))
| ClearChatHistory.

Section Runs.

Variable split_text : string → list string.
Variable float_repr : Qc → string.
Variable search :
  option (gmap string value) → gmap string Document → list (string * string) →
  string → list Document.
Variable generate : string → list Document → list (string * string) → outcome string.

(** The engine after one call; what the call returns is dropped. *)
Definition step (self : RAGEngine) (op : operation) : RAGEngine :=
  match op with
  | AddDocuments env documents source_type metadata =>
      (add_documents env documents source_type metadata self).2
  | IngestFile fs ingestion_time env file_path =>
      (ingest_file split_text fs ingestion_time env file_path self).2
  | IngestWebPage env url => (ingest_web_page split_text env url self).2
  | Chat question source_filter =>
      (chat float_repr search generate question source_filter self).2
  | ClearChatHistory => clear_chat_history self
  end.

(** The engine after a sequence of calls, in order. *)
Definition run (ops : list operation) (self : RAGEngine) : RAGEngine :=
  foldl step self ops.

End Runs.

(** What every engine reached by calls from a newly constructed one
    satisfies: the tracked web ids are stored, they all have the form
    [ingest_web_page] gives them, and the pointer to the latest document
    names an entry of the registry. *)
Definition well_formed (self : RAGEngine) : Prop :=
  (∀ t, t ∈ current_web_ids self → is_Some (vector_store self !! t))
  ∧ (∀ t, t ∈ current_web_ids self → String.prefix "web_" t = true)
  ∧ (∀ id, latest_document_id self = Some id → is_Some (document_metadata self !! id)).





(** ** The web search of the engine (rag_engine.py:232-271) *)

(** The JSON object the Serper API answers with, as far as [_search_web]
    reads it: the list under ["organic"] and the object under
    ["knowledgeGraph"], each of which may be missing. *)
Record SerperData : Type := mkSerperData {
  organic : option (list (gmap string value));
  knowledgeGraph : option (gmap string value)
}.

Definition organic_result (result : gmap string value) : gmap string value :=
  {[ "title" := default (VStr "") (result !! "title");
     "snippet" := default (VStr "") (result !! "snippet");
     "link" := default (VStr "") (result !! "link");
     "source" := VStr "web" ]}.

Definition knowledge_graph_result (kg : gmap string value) : gmap string value :=
  {[ "title" := default (VStr "") (kg !! "title");
     "description" := default (VStr "") (kg !! "description");
     "type" := VStr "knowledge_graph";
     "source" := VStr "web" ]}.

(** [_search_web]: [response] is the outcome of the request and of the
    decoding of its body; the handler logs a failure and returns the empty
    list. *)
Definition _search_web (response : outcome SerperData) : list (gmap string value) :=
  match response with
  | Raise _ => []
  | Ok data =>
      let results :=
        match organic data with
        | Some found => organic_result <$> take 3 found
        | None => []
        end in
      match knowledgeGraph data with
      | Some kg => results ++ [knowledge_graph_result kg]
      | None => results
      end
  end.

(** ** The routes of the application (main.py) *)

(** What a route answers: the body of a response with status 200, or the
    [HTTPException] it raises. *)
Inductive http_response (A : Type) : Type :=
| Http200 (body : A)
| HTTPException (status_code : nat) (detail : string).
#[global] Arguments Http200 {A} body.
#[global] Arguments HTTPException {A} status_code detail.

(** What can be raised inside the body of a route: an exception of the
    code it calls, or an [HTTPException] of its own. *)
Inductive raised : Type :=
| RaisedExn (e : exn)
| RaisedHTTPException (status_code : nat) (detail : string).

(** [str(e)] of an exception made with its message. *)
Definition exn_str (e : exn) : string :=
  match e with
  | ValueError msg => msg
  | TypeError msg => msg
  | OtherError msg => msg
  end.

Definition latest_keywords : list string :=
  ["this document"; "the document"; "this pdf"; "the pdf"; "this file"; "the file"].

(** [needle in haystack] on strings. *)
Fixpoint contains (needle haystack : string) : bool :=
  String.prefix needle haystack
  || match haystack with
     | EmptyString => false
     | String _ rest => contains needle rest
     end.

(** An uploaded file with what the route meets when it handles it:
    [upload_path] is [UPLOAD_DIR / file.filename], [save_raises] a failure
    of opening that path, of reading the upload or of writing it, and the
    rest is what [ingest_file] finds once the file is saved. *)
Record Upload : Type := mkUpload {
  filename : string;
  upload_path : Path;
  save_raises : option exn;
  upload_fs : FileSystem;
  upload_time : string;
  upload_env : AddEnv
}.

Record UploadResult : Type := mkUploadResult {
  result_filename : string;
  result_status : string
}.

Record UploadBody : Type := mkUploadBody {
  upload_message : string;
  upload_results : list UploadResult
}.

Section Routes.

Variable split_text : string → list string.
Variable float_repr : Qc → string.
Variable search :
  option (gmap string value) → gmap string Document → list (string * string) →
  string → list Document.
Variable generate : string → list Document → list (string * string) → outcome string.

(** [str(e)] of an [HTTPException], a method of Starlette. *)
Variable http_exception_str : nat → string → string.

Definition raised_str (e : raised) : string :=
  match e with
  | RaisedExn e => exn_str e
  | RaisedHTTPException status_code detail => http_exception_str status_code detail
  end.

(** [process_chat] (main.py:58-80), on the engine [get_rag_engine]
    returns.  A request without a filter whose question names "this
    document" or the like is asked about the latest document. *)
Definition process_chat (question : string) (source_filter : option (gmap string value))
    (rag_engine : RAGEngine) : http_response ChatResponse * RAGEngine :=
  let source_filter :=
    if negb (dict_truthy source_filter) then
      if existsb (λ keyword, contains keyword (lower question)) latest_keywords
      then Some {[ "latest" := VBool true ]}
      else source_filter
    else source_filter in
  match chat float_repr search generate question source_filter rag_engine with
  | (Ok response, rag_engine) => (Http200 response, rag_engine)
  | (Raise e, rag_engine) => (HTTPException 500 (exn_str e), rag_engine)
  end.

(** The loop of [upload_files] (main.py:82-104): each file is saved and
    ingested, and an entry with the status ["success"] is appended; what
    [ingest_file] returns is not looked at.  An exception ends the
    request with status 500. *)
Fixpoint upload_loop (files : list Upload) (results : list UploadResult)
    (rag_engine : RAGEngine) : outcome (list UploadResult) * RAGEngine :=
  match files with
  | [] => (Ok results, rag_engine)
  | file :: files =>
      match save_raises file with
      | Some e => (Raise e, rag_engine)
      | None =>
          let rag_engine :=
            (ingest_file split_text (upload_fs file) (upload_time file)
                         (upload_env file) (upload_path file) rag_engine).2 in
          upload_loop files (results ++ [mkUploadResult (filename file) "success"])
                      rag_engine
      end
  end.

Definition upload_files (files : list Upload) (rag_engine : RAGEngine)
  : http_response UploadBody * RAGEngine :=
  match upload_loop files [] rag_engine with
  | (Ok results, rag_engine) =>
      (Http200 (mkUploadBody "Files uploaded and processed successfully" results),
       rag_engine)
  | (Raise e, rag_engine) => (HTTPException 500 (exn_str e), rag_engine)
  end.

(** [ingest_webpage] (main.py:106-118): the [HTTPException] with status
    400 is raised inside the [try] whose handler catches [Exception]. *)
Definition ingest_webpage (env : WebEnv) (url : string) (rag_engine : RAGEngine)
  : http_response string * RAGEngine :=
  let '(success, rag_engine) := ingest_web_page split_text env url rag_engine in
  let attempt : raised + string :=
    if negb success then inl (RaisedHTTPException 400 "Failed to ingest web page")
    else inr "Web page ingested successfully" in
  match attempt with
  | inr message => (Http200 message, rag_engine)
  | inl e => (HTTPException 500 (raised_str e), rag_engine)
  end.

(** [clear_history] (main.py:120-130) *)
Definition clear_history (rag_engine : RAGEngine) : http_response string * RAGEngine :=
  (Http200 "Chat history cleared successfully", clear_chat_history rag_engine).

End Routes.

(** ** The document loader (app/ingestion/document_loader.py) *)

(** A page of a PDF: its text layer, and what OCR of its image gives. *)
Record PdfPage : Type := mkPdfPage {
  get_text : string;
  ocr : outcome string
}.

(** An upload as [process_document] meets it: the suffix of its file
    name, a failure of reading it or of writing the temporary file, the
    name of the temporary file, what each reader makes of that file, and
    a failure of removing it. *)
Record UploadedDocument : Type := mkUploadedDocument {
  document_suffix : string;
  copy_raises : option exn;
  temp_file_path : string;
  pdf_document : outcome (list PdfPage);
  docx_document : outcome (list string);
  file_text : outcome string;
  markdown_raises : option exn;
  unlink_raises : option exn
}.

Section DocumentLoader.

Variable split_text : string → list string.

(** The documents made of the chunks of a text, all with the same
    metadata. *)
Definition chunk_documents (text : string) (metadata : gmap string value)
  : list Document :=
  (λ chunk, mkDocument chunk metadata) <$> split_text text.

(** The text of a page: its text layer, or the OCR of its image when the
    layer is blank. *)
Definition page_text (page : PdfPage) : outcome string :=
  if negb (strip_truthy (get_text page)) then ocr page else Ok (get_text page).

(** The loop of [process_pdf] from page [page_num] on. *)
Fixpoint process_pdf_pages (total_pages page_num : nat) (pages : list PdfPage)
    (metadata : gmap string value) : outcome (list Document) :=
  match pages with
  | [] => Ok []
  | page :: pages =>
      match page_text page with
      | Raise e => Raise e
      | Ok text =>
          let documents :=
            if strip_truthy text then
              chunk_documents text
                (<["total_pages" := VInt (Z.of_nat total_pages)]>
                   (<["page_number" := VInt (Z.of_nat page_num + 1)]> metadata))
            else [] in
          match process_pdf_pages total_pages (S page_num) pages metadata with
          | Raise e => Raise e
          | Ok rest => Ok (documents ++ rest)
          end
      end
  end.

Definition process_pdf (file : UploadedDocument) (metadata : gmap string value)
  : outcome (list Document) :=
  match pdf_document file with
  | Raise e => Raise e
  | Ok pages => process_pdf_pages (length pages) 0 pages metadata
  end.

Definition process_docx (file : UploadedDocument) (metadata : gmap string value)
  : outcome (list Document) :=
  match docx_document file with
  | Raise e => Raise e
  | Ok paragraphs => Ok (chunk_documents (join (nl +:+ nl) paragraphs) metadata)
  end.

Definition process_text (file : UploadedDocument) (metadata : gmap string value)
  : outcome (list Document) :=
  match file_text file with
  | Raise e => Raise e
  | Ok text => Ok (chunk_documents text metadata)
  end.

(** [process_markdown]: the HTML that [markdown.markdown] makes of the
    text is not used. *)
Definition process_markdown (file : UploadedDocument) (metadata : gmap string value)
  : outcome (list Document) :=
  match file_text file with
  | Raise e => Raise e
  | Ok text =>
      match markdown_raises file with
      | Some e => Raise e
      | None => Ok (chunk_documents text metadata)
      end
  end.

(** [process_document], with the set of temporary files that exist.  The
    file made by [NamedTemporaryFile(delete=False)] is removed by the
    [finally] of the [try] that follows the [with] block. *)
Definition process_document (file : UploadedDocument) (metadata : gmap string value)
    (temp_files : gset string) : outcome (list Document) * gset string :=
  let file_extension := lower (document_suffix file) in
  let temp_files := {[temp_file_path file]} ∪ temp_files in
  match copy_raises file with
  | Some e => (Raise e, temp_files)
  | None =>
      let documents :=
        if String.eqb file_extension ".pdf" then process_pdf file metadata
        else if String.eqb file_extension ".docx" || String.eqb file_extension ".doc"
        then process_docx file metadata
        else if String.eqb file_extension ".txt" then process_text file metadata
        else if String.eqb file_extension ".md" then process_markdown file metadata
        else Raise (ValueError ("Unsupported file type: " +:+ file_extension)) in
      match unlink_raises file with
      | Some e => (Raise e, temp_files)
      | None => (documents, temp_files ∖ {[temp_file_path file]})
      end
  end.

End DocumentLoader.

(** ** The loggers (app/core/logger.py) *)





(** [name.replace('.', '-')] *)
Fixpoint replace_dots (name : string) : string :=
  match name with
  | EmptyString => EmptyString
  | String c rest =>
      String (if Ascii.eqb c "."%char then "-"%char else c) (replace_dots rest)
  end.



(** ** Rows as markdown (app/ingestion/database_loader.py:86-105) *)

(** The values [dict_to_markdown] tells apart: a dictionary (its items in
    order), a list or tuple, and anything else. *)
Inductive json : Type :=
| JAtom (v : value)
| JList (items : list json)
| JDict (entries : list (string * json)).

(** [s * n] *)
Fixpoint repeat_string (s : string) (n : nat) : string :=
  match n with
  | O => ""
  | S n => s +:+ repeat_string s n
  end.

Section Markdown.

(** [f"{value}"], the [str] of Python, for a value that is not rendered
    as a dictionary. *)
Variable format : json → string.

(** The recursion of [dict_to_markdown], on the dictionary as a value. *)
Fixpoint markdown_of (indent : nat) (data : json) {struct data} : string :=
  match data with
  | JDict entries =>
      let prefix := repeat_string "  " indent in
      join nl
        (concat
           (map (λ entry : string * json,
                   let '(key, value) := entry in
                   match value with
                   | JDict _ =>
                       [prefix +:+ "- **" +:+ key +:+ "**:";
                        markdown_of (S indent) value]
                   | JList items =>
                       (prefix +:+ "- **" +:+ key +:+ "**:")
                       :: map (λ item,
                                 match item with
                                 | JDict _ => markdown_of (S indent) item
                                 | _ => prefix +:+ "  - " +:+ format item
                                 end) items
                   | JAtom _ =>
                       [prefix +:+ "- **" +:+ key +:+ "**: " +:+ format value]
                   end)
                entries))
  | _ => ""
  end.

Definition dict_to_markdown (data : list (string * json)) (indent : nat) : string :=
  markdown_of indent (JDict data).

(** The first line [dict_to_markdown] writes for an item of the
    dictionary. *)
Definition item_line (indent : nat) (key : string) (value : json) : string :=
  match value with
  | JAtom _ => repeat_string "  " indent +:+ "- **" +:+ key +:+ "**: " +:+ format value
  | _ => repeat_string "  " indent +:+ "- **" +:+ key +:+ "**:"
  end.

End Markdown.

(** ** Concrete inputs used by the examples below *)

(** An engine opened on an empty persistence directory. *)
Definition fresh_engine : RAGEngine := __init__ ∅ Missing.

Definition alpha_url : string := "http://a.example".
Definition beta_url : string := "http://b.example".

Definition alpha_page : WebEnv :=
  mkWebEnv false (Ok (mkWebPage 200 "Alpha page." (Some "Alpha"))) None.
Definition beta_page : WebEnv :=
  mkWebEnv false (Ok (mkWebPage 200 "Beta page." None)) None.

Definition sample_env : AddEnv :=
  mkAddEnv "doc-1" "2024-01-01 00:00:00" (λ i, "unit-" +:+ str_of_nat i) None SaveOk.

Definition sample_document : Document :=
  mkDocument "Paris is the capital of France."
             {[ "file" := VStr "paris.txt"; "chunk" := VInt 0 ]}.

(** Caller metadata that uses the two reserved keys. *)
Definition reserved_caller_metadata : gmap string value :=
  {[ "source_type" := VStr "manual"; "document_id" := VStr "mine" ]}.

Definition notes_path : Path := mkPath "notes.txt" ".txt" "uploads/notes.txt".

(** A file system on which [notes.txt] holds one sentence. *)
Definition sample_fs : FileSystem :=
  mkFileSystem (λ _, Ok "Paris is the capital of France.")
               (λ _, Ok []) (λ _, Ok []) (λ _, Ok "") (λ _, 31%Z).

(** A file system on which every reader fails. *)
Definition broken_fs : FileSystem :=
  mkFileSystem (λ _, Raise (OtherError "cannot read"))
               (λ _, Raise (OtherError "cannot read"))
               (λ _, Raise (OtherError "cannot read"))
               (λ _, Raise (OtherError "cannot read"))
               (λ _, 0%Z).

(** A fetch that fails, for [ingest_web_page] and for [process_webpage]. *)
Definition unreachable_page : WebEnv :=
  mkWebEnv false (Raise (OtherError "connection refused")) None.

Definition unreachable_site (is_dynamic : bool) (url : string) : outcome Soup :=
  Raise (OtherError "connection refused").

(** A retriever that returns the first six stored documents matching the
    filter, and a model that always gives the same answer. *)
Definition sample_search (source_filter : option (gmap string value))
    (store : gmap string Document) (history : list (string * string))
    (question : string) : list Document :=
  take 6 (filter (matches source_filter) (snd <$> map_to_list store)).

Definition sample_generate (question : string) (documents : list Document)
    (history : list (string * string)) : outcome string :=
  Ok "Paris.".

Definition sample_float_repr (q : Qc) : string := "1.0".

(** A second unit with the file and chunk of [sample_document]. *)
Definition sample_duplicate : Document :=
  mkDocument "It is known for the Eiffel Tower."
             {[ "file" := VStr "paris.txt"; "chunk" := VInt 0 ]}.

(** The engine after the two units were added to a fresh engine as one
    document. *)
Definition engine_with_document : RAGEngine :=
  (add_documents sample_env [sample_document; sample_duplicate] "document" None
                 fresh_engine).2.

Definition sample_question : string := "What is the capital of France?".

Definition latest_filter : option (gmap string value) :=
  Some {[ "latest" := VBool true ]}.

(** The query for the latest document on that engine, and what it
    returns. *)
Definition sample_result : outcome Response * RAGEngine :=
  query sample_float_repr sample_search sample_generate sample_question
        latest_filter engine_with_document.

Definition sample_response : Response :=
  match sample_result.1 with
  | Ok response => response
  | Raise _ => mkResponse "" [] None
  end.

Definition by_sample_id : option (gmap string value) :=
  Some {[ "document_id" := VStr "doc-1" ]}.

(** A second environment for [add_documents], with ids of its own, and
    one whose write to the vector store fails. *)
Definition second_env : AddEnv :=
  mkAddEnv "doc-2" "2024-01-02 00:00:00" (λ i, "item-" +:+ str_of_nat i) None SaveOk.

Definition failing_store_env : AddEnv :=
  mkAddEnv "doc-9" "2024-01-03 00:00:00" (λ i, "lost-" +:+ str_of_nat i)
           (Some (OtherError "embedding failed")) SaveOk.

Definition unwritable_env : AddEnv :=
  mkAddEnv "doc-3" "2024-01-04 00:00:00" (λ i, "part-" +:+ str_of_nat i) None DumpFails.

(** A run: one document is added, then two web pages are ingested, a
    question is asked and the history is cleared. *)
Definition sample_ingestion : list operation :=
  [AddDocuments sample_env [sample_document; sample_duplicate] "document" None].

Definition sample_session : list operation :=
  [IngestWebPage alpha_page alpha_url; IngestWebPage beta_page beta_url;
   Chat sample_question latest_filter; ClearChatHistory].

(** A PDF of three pages, the second of which has no text. *)
Definition paper_path : Path := mkPath "paper.pdf" ".PDF" "uploads/paper.pdf".

Definition paper_fs : FileSystem :=
  mkFileSystem (λ _, Raise (OtherError "not a text file"))
               (λ _, Ok ["Introduction."; "  "; "Conclusion."])
               (λ _, Ok []) (λ _, Ok "") (λ _, 2048%Z).

(** A site of three pages that link to one another. *)
Definition sample_site (is_dynamic : bool) (url : string) : outcome Soup :=
  if String.eqb url "http://s.example/" then
    Ok (mkSoup "Home." "Home" ["http://s.example/a"; "http://s.example/b"])
  else if String.eqb url "http://s.example/a" then
    Ok (mkSoup "About." "About" ["http://s.example/"; "http://s.example/b"])
  else if String.eqb url "http://s.example/b" then
    Ok (mkSoup "   " "Blank" ["http://s.example/"])
  else Raise (OtherError "not found").

(** The two documents [process_pdf_file] makes of the paper. *)
Definition paper_introduction : Document :=
  mkDocument "Introduction."
    (<["chunk_size" := VInt 13]>
       (<["chunk" := VInt 0]> (<["page" := VInt 1]> (file_metadata "pdf" paper_path)))).

Definition paper_conclusion : Document :=
  mkDocument "Conclusion."
    (<["chunk_size" := VInt 11]>
       (<["chunk" := VInt 0]> (<["page" := VInt 3]> (file_metadata "pdf" paper_path)))).

(** A question asked on the engine that holds the sample document. *)
Definition sample_chat : outcome ChatResponse * RAGEngine :=
  chat sample_float_repr sample_search sample_generate sample_question None
       engine_with_document.

(** A unit whose caller wrote a relevance that is not a number, and the
    engine that stores it. *)
Definition graded_document : Document :=
  mkDocument "Lyon is a city in France."
             {[ "file" := VStr "lyon.txt"; "chunk" := VInt 0;
                "relevance" := VStr "high" ]}.

Definition engine_with_graded_document : RAGEngine :=
  (add_documents second_env [graded_document] "document" None fresh_engine).2.


(** An upload whose type no processor handles, and an upload of the
    notes. *)
Definition program_upload : Upload :=
  mkUpload "setup.exe" (mkPath "setup.exe" ".exe" "uploads/setup.exe") None
           broken_fs "2024-01-05 00:00:00" second_env.

Definition notes_upload : Upload :=
  mkUpload "notes.txt" notes_path None sample_fs "2024-01-01 00:00:00" sample_env.

Definition sample_http_exception_str (status_code : nat) (detail : string) : string :=
  str_of_nat status_code +:+ ": " +:+ detail.

(** A scanned PDF of two pages: the first has a text layer, the second
    has none and is read by OCR. *)
Definition scanned_pdf : UploadedDocument :=
  mkUploadedDocument ".PDF" None "/tmp/tmpa1.pdf"
    (Ok [mkPdfPage "Typed page." (Ok "never read");
         mkPdfPage " " (Ok "Scanned page.")])
    (Raise (OtherError "not a docx file")) (Raise (OtherError "not a text file"))
    None None.

(** The same file when the OCR engine is not installed. *)
Definition scanned_pdf_without_ocr : UploadedDocument :=
  mkUploadedDocument ".pdf" None "/tmp/tmpa2.pdf"
    (Ok [mkPdfPage "Typed page." (Ok "never read");
         mkPdfPage " " (Raise (OtherError "tesseract is not installed"))])
    (Raise (OtherError "not a docx file")) (Raise (OtherError "not a text file"))
    None None.

(** An upload that cannot be read. *)
Definition interrupted_upload : UploadedDocument :=
  mkUploadedDocument ".txt" (Some (OtherError "connection lost")) "/tmp/tmpa3.txt"
    (Raise (OtherError "not a pdf file")) (Raise (OtherError "not a docx file"))
    (Ok "") None None.

Definition caller_metadata : gmap string value :=
  {[ "author" := VStr "A. Writer"; "page_number" := VInt 40 ]}.

(** An answer of the search API with five organic results and a
    knowledge graph. *)
Definition sample_serper_data : SerperData :=
  mkSerperData
    (Some [ {[ "title" := VStr "One"; "link" := VStr "http://1.example" ]};
            {[ "title" := VStr "Two"; "snippet" := VStr "second" ]};
            {[ "link" := VStr "http://3.example" ]};
            {[ "title" := VStr "Four" ]};
            {[ "title" := VStr "Five" ]} ])
    (Some {[ "title" := VStr "Paris"; "description" := VStr "Capital of France" ]}).

(** A row with a nested value, and a rendering of atoms. *)
Definition sample_row : list (string * json) :=
  [("id", JAtom (VInt 7));
   ("name", JAtom (VStr "Ada"));
   ("tags", JList [JAtom (VStr "x"); JDict [("k", JAtom (VBool true))]]);
   ("address", JDict [("city", JAtom (VStr "Paris"))])].

Definition sample_format (v : json) : string :=
  match v with
  | JAtom a => str sample_float_repr a
  | _ => "[...]"
  end.

(** ** The collection: lookups after [upsert] and [delete_ids] *)

Lemma upsert_snoc entries e vs :
  upsert (entries ++ [e]) vs = <[e.1 := e.2]> (upsert entries vs).
Proof. unfold upsert. by rewrite foldl_snoc. Qed.

Lemma upsert_lookup_other entries vs k :
  k ∉ entries.*1 → upsert entries vs !! k = vs !! k.
Proof.
  induction entries as [|e entries IH] using rev_ind; [done|].
  rewrite fmap_app, not_elem_of_app. intros [Hl He].
  rewrite upsert_snoc, lookup_insert_ne; [by apply IH|].
  intros Hk. apply He. simpl. rewrite Hk. apply list_elem_of_here.
Qed.

Lemma upsert_lookup_entry entries vs k d :
  NoDup entries.*1 → (k, d) ∈ entries → upsert entries vs !! k = Some d.
Proof.
  induction entries as [|e entries IH] using rev_ind; [by intros _ ?%elem_of_nil|].
  rewrite fmap_app. intros [Hnd [Hdisj _]]%list.NoDup_app Hin.
  rewrite upsert_snoc. apply elem_of_app in Hin as [Hin|Hin].
  - rewrite lookup_insert_ne; [by apply IH|].
    intros Hk. apply (Hdisj k).
    + apply list_elem_of_fmap. by exists (k, d).
    + rewrite <- Hk. simpl. apply list_elem_of_here.
  - apply list_elem_of_singleton in Hin as <-. simpl. apply lookup_insert_eq.
Qed.


Lemma delete_ids_lookup ids vs k :
  delete_ids ids vs !! k = if decide (k ∈ ids) then None else vs !! k.
Proof.
  induction ids as [|i ids IH].
  - destruct (decide (k ∈ [])) as [Hin%elem_of_nil|]; done.
  - change (delete_ids (i :: ids) vs) with (delete i (delete_ids ids vs)).
    destruct (decide (i = k)) as [->|Hne].
    + rewrite lookup_delete_eq.
      destruct (decide (k ∈ k :: ids)) as [|Hnin]; [done|].
      exfalso. apply Hnin, list_elem_of_here.
    + rewrite lookup_delete_ne, IH by done.
      destruct (decide (k ∈ ids)) as [Hin|Hnin];
        destruct (decide (k ∈ i :: ids)) as [Hin'|Hnin']; try done.
      * exfalso. apply Hnin'. by apply list_elem_of_further.
      * apply elem_of_cons in Hin' as [?|?]; [congruence|done].
Qed.

(** ** Eviction: what [_cleanup_web_results] deletes *)

(** A document outside the tracked set is never touched. *)
Lemma cleanup_keeps_untracked fault self k :
  k ∉ current_web_ids self →
  vector_store (_cleanup_web_results fault self) !! k = vector_store self !! k.
Proof.
  intros Hk. unfold _cleanup_web_results.
  case_bool_decide; [done|]. destruct fault; [done|].
  destruct (docs_to_keep self); [done|]. simpl.
  rewrite delete_ids_lookup, decide_False; [done|].
  by rewrite elem_of_elements.
Qed.

(** When the collection holds a document outside the tracked set, the
    tracked ids are deleted. *)
Lemma cleanup_evicts_when_others_stored self other k :
  other ∈ dom (vector_store self) → other ∉ current_web_ids self →
  k ∈ current_web_ids self →
  vector_store (_cleanup_web_results false self) !! k = None.
Proof.
  intros Hdom Hother Hk. unfold _cleanup_web_results.
  rewrite bool_decide_eq_false_2 by set_solver.
  assert (other ∈ docs_to_keep self) as Hkeep.
  { unfold docs_to_keep. apply list_elem_of_filter. split; [done|].
    by apply elem_of_elements. }
  destruct (docs_to_keep self); [by apply elem_of_nil in Hkeep|]. simpl.
  rewrite delete_ids_lookup, decide_True; [done|]. by apply elem_of_elements.
Qed.

(** When every stored document is in the tracked set, the guard
    [if docs_to_keep:] skips the deletion: the collection is left as it is
    and only the tracked set is emptied. *)
Lemma cleanup_skips_deletion_on_web_only_store self :
  dom (vector_store self) ⊆ current_web_ids self →
  vector_store (_cleanup_web_results false self) = vector_store self
  ∧ current_web_ids (_cleanup_web_results false self) = ∅.
Proof.
  intros Hsub. unfold _cleanup_web_results.
  case_bool_decide as Hempty; [done|].
  destruct (docs_to_keep self) as [|id keep] eqn:Hkeep; [done|].
  assert (id ∈ docs_to_keep self) as Hid by (rewrite Hkeep; apply list_elem_of_here).
  unfold docs_to_keep in Hid.
  apply list_elem_of_filter in Hid as [Hout Hid%elem_of_elements]. set_solver.
Qed.

Lemma upsert_is_Some entries vs k :
  is_Some (vs !! k) → is_Some (upsert entries vs !! k).
Proof.
  intros Hk. induction entries as [|e entries IH] using rev_ind; [done|].
  rewrite upsert_snoc. destruct (decide (e.1 = k)) as [<-|Hne].
  - rewrite lookup_insert_eq. by eexists.
  - by rewrite lookup_insert_ne.
Qed.

Lemma web_entries_keys url page (chunks : list string) :
  (zip (web_doc_ids url chunks) (web_documents url page chunks)).*1
  = web_doc_ids url chunks.
Proof.
  apply fst_zip. unfold web_doc_ids, web_documents. by rewrite !length_imap.
Qed.

(** The store of a web ingestion: the store left by the cleanup, with the
    new batch written over it when the call returns [True]. *)
Lemma ingest_web_page_store split_text env url self :
  let cleaned := _cleanup_web_results (cleanup_raises env) self in
  let result := ingest_web_page split_text env url self in
  (result.1 = false ∧ vector_store result.2 = vector_store cleaned
   ∧ current_web_ids result.2 = current_web_ids cleaned)
  ∨ ∃ page,
      response env = Ok page ∧ result.1 = true
      ∧ vector_store result.2
        = upsert (zip (web_doc_ids url (split_text (text page)))
                      (web_documents url page (split_text (text page))))
                 (vector_store cleaned)
      ∧ current_web_ids result.2
        = current_web_ids cleaned
          ∪ list_to_set (web_doc_ids url (split_text (text page))).
Proof.
  unfold ingest_web_page.
  destruct (response env) as [page|]; [|by left].
  destruct (negb _); [by left|].
  destruct (web_add_raises env); [by left|].
  right. by exists page.
Qed.

(** With a document outside the tracked batch in the store, a web
    ingestion leaves no unit of the previous batch behind: an id of that
    batch is either gone or belongs to the new batch. *)
Lemma previous_batch_evicted_when_others_stored split_text env url self other id :
  cleanup_raises env = false →
  other ∈ dom (vector_store self) → other ∉ current_web_ids self →
  id ∈ current_web_ids self →
  let result := ingest_web_page split_text env url self in
  vector_store result.2 !! id = None ∨ id ∈ current_web_ids result.2.
Proof.
  intros Hfault Hdom Hother Hid result.
  pose proof (cleanup_evicts_when_others_stored self other id Hdom Hother Hid) as Hgone.
  destruct (ingest_web_page_store split_text env url self)
    as [(_ & Hstore & _)|(page & _ & _ & Hstore & Hids)];
    fold result in Hstore; rewrite Hfault in Hstore.
  - left. by rewrite Hstore.
  - fold result in Hids.
    destruct (decide (id ∈ web_doc_ids url (split_text (text page)))) as [Hin|Hnin].
    + right. rewrite Hids. apply elem_of_union_r. by apply elem_of_list_to_set.
    + left. rewrite Hstore, upsert_lookup_other; [done|].
      by rewrite web_entries_keys.
Qed.

(** A document outside the tracked batch and outside the new batch is
    left as it is by a web ingestion. *)
Lemma other_documents_survive_web_ingestion split_text env url self k :
  k ∉ current_web_ids self →
  (∀ page, response env = Ok page → k ∉ web_doc_ids url (split_text (text page))) →
  vector_store (ingest_web_page split_text env url self).2 !! k = vector_store self !! k.
Proof.
  intros Hk Hnew.
  pose proof (cleanup_keeps_untracked (cleanup_raises env) self k Hk) as Hkeep.
  destruct (ingest_web_page_store split_text env url self)
    as [(_ & Hstore & _)|(page & Hpage & _ & Hstore & _)]; rewrite Hstore.
  - done.
  - rewrite upsert_lookup_other; [done|].
    rewrite web_entries_keys. by apply Hnew.
Qed.

(** With only tracked web units in the store, nothing is evicted: every
    stored id is still stored after the next web ingestion. *)
Lemma web_only_store_is_never_evicted split_text env url self id :
  dom (vector_store self) ⊆ current_web_ids self →
  is_Some (vector_store self !! id) →
  is_Some (vector_store (ingest_web_page split_text env url self).2 !! id).
Proof.
  intros Hsub Hid.
  assert (vector_store (_cleanup_web_results (cleanup_raises env) self)
          = vector_store self) as Hclean.
  { destruct (cleanup_raises env).
    - unfold _cleanup_web_results. by case_bool_decide.
    - by apply cleanup_skips_deletion_on_web_only_store. }
  destruct (ingest_web_page_store split_text env url self)
    as [(_ & Hstore & _)|(page & _ & _ & Hstore & _)]; rewrite Hstore, Hclean.
  - done.
  - by apply upsert_is_Some.
Qed.

(** C1 (the claim fails on the code): on an engine whose collection is
    empty, the web page at [alpha_url] is ingested and then the page at
    [beta_url].  Both calls return [True]; the id of the first page's
    unit was in the tracked batch after the first call, the tracked batch
    after the second call holds the second page's id only, and the first
    page's unit is still stored. *)
Theorem C1_previous_web_batch_survives_on_web_only_store :
  let after_alpha := ingest_web_page Chunker.split_text alpha_page alpha_url fresh_engine in
  let after_beta := ingest_web_page Chunker.split_text beta_page beta_url after_alpha.2 in
  after_alpha.1 = true ∧ after_beta.1 = true
  ∧ elements (current_web_ids after_alpha.2) = ["web_http://a.example_0"]
  ∧ elements (current_web_ids after_beta.2) = ["web_http://b.example_0"]
  ∧ page_content <$> (vector_store after_beta.2 !! "web_http://a.example_0")
    = Some "Alpha page.".
Proof. vm_compute. repeat split; reflexivity. Qed.

(** ** Stamping of metadata by [add_documents] *)

Lemma stored_units_NoDup env (documents : list Document) :
  (∀ j k, j < length documents → k < length documents →
          chroma_id env j = chroma_id env k → j = k) →
  NoDup (stored_units env documents).*1.
Proof.
  intros Hinj. apply NoDup_alt. intros j k id.
  unfold stored_units. rewrite !list_lookup_fmap, !list_lookup_imap.
  destruct (documents !! j) as [dj|] eqn:Hj; [|done].
  destruct (documents !! k) as [dk|] eqn:Hk; [|done].
  simpl. intros [= <-] [= Hid].
  apply Hinj; eauto using lookup_lt_Some.
Qed.

Lemma add_documents_vector_store env documents source_type md self :
  add_raises env = None →
  vector_store (add_documents env documents source_type md self).2
  = upsert (stored_units env (stamp source_type (uuid4 env) md <$> documents))
           (vector_store self).
Proof.
  intros Hok. unfold add_documents. rewrite Hok.
  by destruct (save_fails env).
Qed.

Lemma stamp_page_content source_type doc_id md doc :
  page_content (stamp source_type doc_id md doc) = page_content doc.
Proof. by destruct doc. Qed.

(** The value of a reserved key after the stamp: the caller's, when the
    caller metadata has the key. *)
Lemma stamp_source_type source_type doc_id md doc :
  metadata (stamp source_type doc_id md doc) !! "source_type"
  = Some (default (VStr source_type) (md ≫= (.!! "source_type"))).
Proof.
  destruct doc as [content dmd]. unfold stamp. simpl.
  destruct md as [m|]; simpl.
  - case_bool_decide as Hm; simpl.
    + subst m. by rewrite lookup_empty, lookup_insert_ne, lookup_insert_eq.
    + rewrite lookup_union. destruct (m !! "source_type") as [v|]; simpl.
      * by rewrite lookup_insert_ne, lookup_insert_eq.
      * by rewrite lookup_insert_ne, lookup_insert_eq.
  - by rewrite lookup_insert_ne, lookup_insert_eq.
Qed.

Lemma stamp_document_id source_type doc_id md doc :
  metadata (stamp source_type doc_id md doc) !! "document_id"
  = Some (default (VStr doc_id) (md ≫= (.!! "document_id"))).
Proof.
  destruct doc as [content dmd]. unfold stamp. simpl.
  destruct md as [m|]; simpl.
  - case_bool_decide as Hm; simpl.
    + subst m. by rewrite lookup_empty, lookup_insert_eq.
    + rewrite lookup_union. destruct (m !! "document_id") as [v|]; simpl.
      * by rewrite lookup_insert_eq.
      * by rewrite lookup_insert_eq.
  - by rewrite lookup_insert_eq.
Qed.

(** C2 (the claim fails on the code): one document is added as a
    ["document"] with caller metadata that has the keys ["source_type"] and
    ["document_id"].  The call completes, and the stored unit carries the
    caller's values ["manual"] and ["mine"], not the source type of the
    call and not the generated id ["doc-1"]. *)
Lemma C2_caller_keys_overwrite_reserved_keys :
  let result := add_documents sample_env [sample_document] "document"
                              (Some reserved_caller_metadata) fresh_engine in
  result.1 = Ok ()
  ∧ uuid4 sample_env = "doc-1"
  ∧ (vector_store result.2 !! "unit-0") ≫= (λ unit, metadata unit !! "source_type")
    = Some (VStr "manual")
  ∧ (vector_store result.2 !! "unit-0") ≫= (λ unit, metadata unit !! "document_id")
    = Some (VStr "mine").
Proof. vm_compute. repeat split; reflexivity. Qed.

(** C2 (amended): after a call of [add_documents] that completes, the
    unit stored for each document has under ["source_type"] and
    ["document_id"] the source type of the call and the generated id,
    except for a key that the caller metadata contains: that key has the
    caller's value. *)
Theorem C2_reserved_keys_hold_unless_caller_sets_them
    env documents source_type md self i doc :
  add_raises env = None →
  (∀ j k, j < length documents → k < length documents →
          chroma_id env j = chroma_id env k → j = k) →
  documents !! i = Some doc →
  ∃ unit,
    vector_store (add_documents env documents source_type md self).2
      !! chroma_id env i = Some unit
    ∧ page_content unit = page_content doc
    ∧ metadata unit !! "source_type"
      = Some (default (VStr source_type) (md ≫= (.!! "source_type")))
    ∧ metadata unit !! "document_id"
      = Some (default (VStr (uuid4 env)) (md ≫= (.!! "document_id"))).
Proof.
  intros Hok Hinj Hdoc.
  exists (stamp source_type (uuid4 env) md doc).
  rewrite add_documents_vector_store by done.
  split; [|by rewrite stamp_page_content, stamp_source_type, stamp_document_id].
  apply upsert_lookup_entry.
  - apply stored_units_NoDup. by rewrite length_fmap.
  - apply list_elem_of_lookup. exists i.
    unfold stored_units. rewrite list_lookup_imap, list_lookup_fmap, Hdoc. done.
Qed.

Lemma C2_reserved_keys_witness :
  ∃ unit,
    vector_store (add_documents sample_env [sample_document] "document"
                                (Some {["author" := VStr "me"]}) fresh_engine).2
      !! chroma_id sample_env 0 = Some unit
    ∧ page_content unit = page_content sample_document
    ∧ metadata unit !! "source_type"
      = Some (default (VStr "document")
                      (Some ({["author" := VStr "me"]} : gmap string value)
                         ≫= (.!! "source_type")))
    ∧ metadata unit !! "document_id"
      = Some (default (VStr (uuid4 sample_env))
                      (Some ({["author" := VStr "me"]} : gmap string value)
                         ≫= (.!! "document_id"))).
Proof.
  apply (C2_reserved_keys_hold_unless_caller_sets_them
           sample_env [sample_document] "document"
           (Some {["author" := VStr "me"]}) fresh_engine 0 sample_document).
  - reflexivity.
  - simpl. lia.
  - reflexivity.
Defined.

(** The metadata [ingest_file] passes to [add_documents] has neither
    reserved key, so the units of a file ingestion carry the source type
    ["file"] and the generated document id. *)
Lemma ingest_file_stamps_units split_text fs ingestion_time env file_path self
    documents i doc :
  process_file split_text fs file_path = Ok documents →
  add_raises env = None →
  (∀ j k, j < length documents → k < length documents →
          chroma_id env j = chroma_id env k → j = k) →
  documents !! i = Some doc →
  ∃ unit,
    vector_store (ingest_file split_text fs ingestion_time env file_path self).2
      !! chroma_id env i = Some unit
    ∧ page_content unit = page_content doc
    ∧ metadata unit !! "source_type" = Some (VStr "file")
    ∧ metadata unit !! "document_id" = Some (VStr (uuid4 env)).
Proof.
  intros Hproc Hok Hinj Hdoc.
  assert (∃ md : gmap string value,
            md !! "source_type" = None ∧ md !! "document_id" = None
            ∧ (ingest_file split_text fs ingestion_time env file_path self).2
              = (add_documents env documents "file" (Some md) self).2)
    as (md & Hst & Hid & ->).
  { unfold ingest_file. rewrite Hproc.
    destruct documents as [|d documents]; [done|].
    match goal with
    | |- context [add_documents _ _ _ (Some ?m) _] => exists m
    end.
    split; [by vm_compute|]. split; [by vm_compute|].
    by destruct (add_documents _ _ _ _ _) as [[[]|?] ?]. }
  exists (stamp "file" (uuid4 env) (Some md) doc).
  rewrite add_documents_vector_store by done.
  rewrite stamp_page_content, stamp_source_type, stamp_document_id. simpl.
  rewrite Hst, Hid. split; [|done].
  apply upsert_lookup_entry.
  - apply stored_units_NoDup. by rewrite length_fmap.
  - apply list_elem_of_lookup. exists i.
    unfold stored_units. by rewrite list_lookup_imap, list_lookup_fmap, Hdoc.
Qed.

(** ** What an ingestion writes to the registry *)

(** [add_documents] writes the registry entry and the pointer to the
    latest document before it calls the vector store, so both are set
    whether or not that call raises. *)
Lemma add_documents_registry env documents source_type md self :
  let result := add_documents env documents source_type md self in
  document_metadata result.2
  = <[uuid4 env := registry_entry source_type (now env) md]> (document_metadata self)
  ∧ latest_document_id result.2 = Some (uuid4 env).
Proof.
  unfold add_documents. destruct (add_raises env); [done|].
  by destruct (save_fails env).
Qed.

Lemma add_documents_completes env documents source_type md self :
  add_raises env = None → save_fails env = SaveOk →
  let result := add_documents env documents source_type md self in
  result.1 = Ok ()
  ∧ metadata_file result.2 = Stored (document_metadata result.2).
Proof. intros Hadd Hsave. unfold add_documents. by rewrite Hadd, Hsave. Qed.

(** The cleanup changes the collection and the tracked set only. *)
Lemma cleanup_registry fault self :
  let self' := _cleanup_web_results fault self in
  document_metadata self' = document_metadata self
  ∧ latest_document_id self' = latest_document_id self
  ∧ metadata_file self' = metadata_file self
  ∧ memory self' = memory self.
Proof.
  unfold _cleanup_web_results. case_bool_decide; [done|].
  destruct fault; [done|]. by destruct (docs_to_keep self).
Qed.

(** The cleanup adds nothing to the collection. *)
Lemma cleanup_store_subset fault self id d :
  vector_store (_cleanup_web_results fault self) !! id = Some d →
  vector_store self !! id = Some d.
Proof.
  unfold _cleanup_web_results. case_bool_decide; [done|].
  destruct fault; [done|]. destruct (docs_to_keep self); [done|]. simpl.
  rewrite delete_ids_lookup. by case_decide.
Qed.

(** A web ingestion never writes the registry, the pointer to the latest
    document, or the registry file. *)
Lemma ingest_web_page_registry split_text env url self :
  let result := ingest_web_page split_text env url self in
  document_metadata result.2 = document_metadata self
  ∧ latest_document_id result.2 = latest_document_id self
  ∧ metadata_file result.2 = metadata_file self.
Proof.
  pose proof (cleanup_registry (cleanup_raises env) self) as (Hr & Hl & Hf & _).
  unfold ingest_web_page.
  destruct (response env) as [page|]; [|done].
  destruct (negb _); [done|].
  by destruct (web_add_raises env).
Qed.

(** C3 (the claim fails on the code): a web page is ingested on a fresh
    engine.  The call returns [True] and one unit is stored, but no
    document entry is recorded, no latest document is set and no registry
    file is written. *)
Lemma C3_web_ingestion_records_no_document :
  let result := ingest_web_page Chunker.split_text alpha_page alpha_url fresh_engine in
  result.1 = true
  ∧ elements (dom (vector_store result.2)) = ["web_http://a.example_0"]
  ∧ latest_document_id result.2 = None
  ∧ document_metadata result.2 = ∅
  ∧ metadata_file result.2 = Missing.
Proof. vm_compute. repeat split; reflexivity. Qed.

(** C3 (amended): a file ingestion that extracts at least one unit, whose
    write to the vector store succeeds and whose registry file can be
    written, returns [True] having recorded a registry entry under the
    generated document id, set that id as the latest document and written
    the registry to its file.  A web ingestion leaves the registry, the
    latest document and the registry file as they were. *)
Theorem C3_file_ingestion_registers_and_web_does_not
    split_text fs ingestion_time env file_path self documents web_env url :
  process_file split_text fs file_path = Ok documents →
  documents ≠ [] →
  add_raises env = None →
  save_fails env = SaveOk →
  let result := ingest_file split_text fs ingestion_time env file_path self in
  let web_result := ingest_web_page split_text web_env url self in
  (result.1 = true
   ∧ (∃ entry, document_metadata result.2
               = <[uuid4 env := entry]> (document_metadata self)
               ∧ entry !! "source_type" = Some (VStr "file")
               ∧ entry !! "timestamp" = Some (VStr (now env)))
   ∧ latest_document_id result.2 = Some (uuid4 env)
   ∧ metadata_file result.2 = Stored (document_metadata result.2))
  ∧ (document_metadata web_result.2 = document_metadata self
     ∧ latest_document_id web_result.2 = latest_document_id self
     ∧ metadata_file web_result.2 = metadata_file self).
Proof.
  intros Hproc Hne Hadd Hsave. split; [|apply ingest_web_page_registry].
  unfold ingest_file. rewrite Hproc.
  destruct documents as [|d documents]; [done|].
  set (md := Some _).
  pose proof (add_documents_registry env (d :: documents) "file" md self) as [Hreg Hlatest].
  pose proof (add_documents_completes env (d :: documents) "file" md self Hadd Hsave)
    as [Hok Hfile].
  destruct (add_documents env (d :: documents) "file" md self) as [[[]|e] self'];
    simpl in *; [|done].
  split; [done|]. split; [|done].
  eexists. split; [exact Hreg|]. unfold registry_entry, md. simpl.
  rewrite !lookup_union. split; by vm_compute.
Qed.

Lemma C3_file_ingestion_witness :
  let result := ingest_file Chunker.split_text sample_fs "2024-01-01 00:00:00"
                            sample_env notes_path fresh_engine in
  let web_result := ingest_web_page Chunker.split_text alpha_page alpha_url fresh_engine in
  (result.1 = true
   ∧ (∃ entry, document_metadata result.2
               = <[uuid4 sample_env := entry]> (document_metadata fresh_engine)
               ∧ entry !! "source_type" = Some (VStr "file")
               ∧ entry !! "timestamp" = Some (VStr (now sample_env)))
   ∧ latest_document_id result.2 = Some (uuid4 sample_env)
   ∧ metadata_file result.2 = Stored (document_metadata result.2))
  ∧ (document_metadata web_result.2 = document_metadata fresh_engine
     ∧ latest_document_id web_result.2 = latest_document_id fresh_engine
     ∧ metadata_file web_result.2 = metadata_file fresh_engine).
Proof.
  apply (C3_file_ingestion_registers_and_web_does_not
           Chunker.split_text sample_fs "2024-01-01 00:00:00" sample_env notes_path
           fresh_engine
           (split_text_into_documents Chunker.split_text
              "Paris is the capital of France." (file_metadata "txt" notes_path))
           alpha_page alpha_url).
  - reflexivity.
  - vm_compute. discriminate.
  - reflexivity.
  - reflexivity.
Defined.

(** ** Failure of a normalizer *)

(** C4 (the claim fails on the code): the text file cannot be read, so
    [process_file] raises; [ingest_file] returns the value [False] and the
    engine is as before, and nothing is raised to the caller.  A crawl whose
    fetch fails returns the empty list. *)
Lemma C4_failure_is_returned_as_false_not_raised :
  process_file Chunker.split_text broken_fs notes_path = Raise (OtherError "cannot read")
  ∧ ingest_file Chunker.split_text broken_fs "2024-01-01 00:00:00" sample_env
                notes_path fresh_engine
    = (false, fresh_engine)
  ∧ (ingest_web_page Chunker.split_text unreachable_page alpha_url fresh_engine).1
    = false
  ∧ (process_webpage Chunker.split_text unreachable_site false 1 alpha_url ∅).1 = [].
Proof. vm_compute. repeat split; reflexivity. Qed.

(** C4 (amended): when the normalizer of an ingestion fails, the failure
    is caught where it occurs.  [ingest_file] returns [False] and leaves
    the engine unchanged; [ingest_web_page], on a failed fetch or a status
    other than 200, returns [False], leaves the registry unchanged and
    stores no unit that was not stored before; [process_webpage] returns
    no document for a page it cannot fetch.  No exception reaches the
    caller, and no unit of the failed ingestion is registered. *)
Theorem C4_failed_normalizer_is_caught_and_registers_nothing
    split_text fs ingestion_time env file_path self e
    web_env url get_content is_dynamic max_depth page_url visited_urls e' :
  process_file split_text fs file_path = Raise e →
  (∀ page, response web_env = Ok page → status page ≠ 200%Z) →
  get_content is_dynamic page_url = Raise e' →
  page_url ∉ visited_urls →
  let web_result := ingest_web_page split_text web_env url self in
  ingest_file split_text fs ingestion_time env file_path self = (false, self)
  ∧ (web_result.1 = false
     ∧ document_metadata web_result.2 = document_metadata self
     ∧ latest_document_id web_result.2 = latest_document_id self
     ∧ ∀ id unit, vector_store web_result.2 !! id = Some unit →
                  vector_store self !! id = Some unit)
  ∧ process_webpage split_text get_content is_dynamic max_depth page_url visited_urls
    = ([], {[page_url]} ∪ visited_urls).
Proof.
  intros Hproc Hfetch Hget Hfresh. split; [|split].
  - unfold ingest_file. by rewrite Hproc.
  - pose proof (ingest_web_page_registry split_text web_env url self) as (Hr & Hl & _).
    split; [|split; [exact Hr|split; [exact Hl|]]].
    + unfold ingest_web_page. destruct (response web_env) as [page|]; [|done].
      specialize (Hfetch page eq_refl).
      by rewrite (proj2 (Z.eqb_neq _ _) Hfetch).
    + intros id unit. unfold ingest_web_page.
      destruct (response web_env) as [page|].
      * specialize (Hfetch page eq_refl).
        rewrite (proj2 (Z.eqb_neq _ _) Hfetch). simpl. apply cleanup_store_subset.
      * simpl. apply cleanup_store_subset.
  - destruct max_depth; simpl;
      rewrite bool_decide_eq_false_2 by done; by rewrite Hget.
Qed.

Lemma C4_failed_normalizer_witness :
  let web_result :=
    ingest_web_page Chunker.split_text unreachable_page alpha_url fresh_engine in
  ingest_file Chunker.split_text broken_fs "2024-01-01 00:00:00" sample_env
              notes_path fresh_engine = (false, fresh_engine)
  ∧ (web_result.1 = false
     ∧ document_metadata web_result.2 = document_metadata fresh_engine
     ∧ latest_document_id web_result.2 = latest_document_id fresh_engine
     ∧ ∀ id unit, vector_store web_result.2 !! id = Some unit →
                  vector_store fresh_engine !! id = Some unit)
  ∧ process_webpage Chunker.split_text unreachable_site false 2 alpha_url ∅
    = ([], {[alpha_url]} ∪ ∅).
Proof.
  apply (C4_failed_normalizer_is_caught_and_registers_nothing
           Chunker.split_text broken_fs "2024-01-01 00:00:00" sample_env notes_path
           fresh_engine (OtherError "cannot read")
           unreachable_page alpha_url unreachable_site false 2 alpha_url ∅
           (OtherError "connection refused")).
  - reflexivity.
  - intros page H. discriminate H.
  - reflexivity.
  - apply not_elem_of_empty.
Defined.

(** ** Properties of [query] and [chat] *)

Section QueryProperties.

Variable float_repr : Qc → string.
Variable search :
  option (gmap string value) → gmap string Document → list (string * string) →
  string → list Document.
Variable generate : string → list Document → list (string * string) → outcome string.

Lemma query_short_circuit question source_filter self :
  resolve_latest self source_filter = None →
  query float_repr search generate question source_filter self
  = (Ok (mkResponse no_documents_message [] None), self).
Proof. intros H. unfold query. by rewrite H. Qed.


(** *** The sources: one citation per key, first occurrence wins *)

Lemma process_sources_kept registry seen docs :
  process_sources float_repr registry seen docs = source_info registry <$> kept_documents float_repr seen docs.
Proof.
  revert seen. induction docs as [|d docs IH]; intros seen; simpl; [done|].
  case_bool_decide; [apply IH|]. simpl. by rewrite IH.
Qed.

Lemma citation_key_source_info registry doc :
  citation_key float_repr (source_info registry doc) = chunk_id float_repr doc.
Proof. done. Qed.





End QueryProperties.

Section QueryClaims.

Variable float_repr : Qc → string.
Variable search :
  option (gmap string value) → gmap string Document → list (string * string) →
  string → list Document.
Variable generate : string → list Document → list (string * string) → outcome string.


(** *** Confidence *)

Lemma relevance_fold_None sources :
  foldl (λ acc s,
           match acc, number (src_relevance s) with
           | Some total, Some r => Some (total + r)%Qc
           | _, _ => None
           end) None sources = None.
Proof. induction sources as [|c cs IH]; [done|]. simpl. apply IH. Qed.




End QueryClaims.

(** No loader of the sources writes a ["relevance"] key, so every score is
    the default 1.0; the mean of such scores is 1.0, with no rounding
    involved. *)
Lemma Q2Qc_inject_succ (n : nat) :
  Q2Qc (inject_Z (Z.of_nat (S n))) = (1 + Q2Qc (inject_Z (Z.of_nat n)))%Qc.
Proof.
  apply Qc_is_canon. simpl. rewrite !Qred_correct.
  rewrite Nat2Z.inj_succ, <- Z.add_1_l, inject_Z_plus. reflexivity.
Qed.

Lemma sum_of_ones (scores : list Qc) :
  Forall (λ r, r = 1%Qc) scores →
  foldr Qcplus 0%Qc scores = Q2Qc (inject_Z (Z.of_nat (length scores))).
Proof.
  induction 1 as [|r scores -> _ IH]; [done|].
  cbn [foldr length]. by rewrite IH, Q2Qc_inject_succ.
Qed.

Lemma arithmetic_mean_of_ones (scores : list Qc) :
  scores ≠ [] → Forall (λ r, r = 1%Qc) scores → arithmetic_mean scores = 1%Qc.
Proof.
  intros Hne Hall. unfold arithmetic_mean. rewrite sum_of_ones by done.
  apply Qcmult_inv_r. intros H%Q2Qc_eq_iff.
  destruct scores; [done|]. unfold Qeq in H. simpl in H. lia.
Qed.

(** ** The filter ["latest"] *)


Section LatestFilter.

Variable float_repr : Qc → string.
Variable search :
  option (gmap string value) → gmap string Document → list (string * string) →
  string → list Document.
Variable generate : string → list Document → list (string * string) → outcome string.

(** A filter that asks for the latest document, on an engine that has
    none, takes the early return. *)
Lemma resolve_latest_unset self source_filter :
  latest_document_id self = None →
  dict_truthy source_filter = true →
  get_truthy (default ∅ source_filter) "latest" = true →
  resolve_latest self source_filter = None.
Proof. intros Hl Hf Hk. unfold resolve_latest. by rewrite Hf, Hk, Hl. Qed.

Lemma resolve_latest_by_id self latest :
  resolve_latest self (Some {["document_id" := VStr latest]})
  = Some (Some {["document_id" := VStr latest]}).
Proof.
  unfold resolve_latest, get_truthy. simpl.
  rewrite bool_decide_eq_false_2 by apply map_non_empty_singleton.
  by rewrite lookup_singleton_ne.
Qed.


(** What [chat] makes of a query that returned: the sources are
    reformatted; with no source the answer is replaced and the confidence
    set to 0.0, with a source the answer is kept and no confidence is
    returned. *)
Lemma chat_after_query question source_filter self response self' :
  query float_repr search generate question source_filter self = (Ok response, self') →
  chat float_repr search generate question source_filter self
  = (Ok (match sources response with
         | [] => mkChatResponse no_information_message [] (Some 0%Qc)
         | _ :: _ =>
             mkChatResponse (answer response)
               (chat_source (document_metadata self') <$> sources response) None
         end), self').
Proof. intros Hq. unfold chat. rewrite Hq. by destruct (sources response). Qed.

(** C6 (the claim fails on the code): on an engine on which nothing was
    ever ingested, a query with the filter [{"latest": True}] returns the
    message about no uploaded documents and no sources, but no confidence:
    the early return does not set the key.  [chat] then finds no sources,
    sets the confidence to 0.0 and replaces the answer by the message about
    no relevant information. *)
Theorem C6_early_return_lacks_confidence_and_chat_replaces_answer question :
  query float_repr search generate question latest_filter fresh_engine
  = (Ok (mkResponse no_documents_message [] None), fresh_engine)
  ∧ chat float_repr search generate question latest_filter fresh_engine
    = (Ok (mkChatResponse no_information_message [] (Some 0%Qc)), fresh_engine).
Proof.
  assert (query float_repr search generate question latest_filter fresh_engine
          = (Ok (mkResponse no_documents_message [] None), fresh_engine)) as Hq.
  { by apply query_short_circuit, resolve_latest_unset. }
  split; [done|]. by rewrite (chat_after_query _ _ _ _ _ Hq).
Qed.

(** C10: an engine opened on a persistence directory that holds a
    collection and a registry has the collection and the registry, but no
    latest document; a query with the filter [{"latest": True}] takes the
    early return with the message about no uploaded documents, without
    reaching the retriever or the model. *)
Theorem C10_reopened_engine_has_no_latest_document store file question :
  let self := __init__ store file in
  latest_document_id self = None
  ∧ vector_store self = store
  ∧ (∀ registry, file = Stored registry → document_metadata self = registry)
  ∧ query float_repr search generate question latest_filter self
    = (Ok (mkResponse no_documents_message [] None), self).
Proof.
  assert (latest_document_id (__init__ store file) = None) as Hl
    by (by destruct file).
  split; [done|]. split; [by destruct file|]. split; [by intros registry ->|].
  by apply query_short_circuit, resolve_latest_unset.
Qed.

End LatestFilter.



(** A restart after an ingestion: the reopened engine has the stored units
    and the registry entry of the document, but not the pointer to it, and
    the query for the latest document takes the early return. *)
Example restart_forgets_latest_document :
  let reopened := __init__ (vector_store engine_with_document)
                           (metadata_file engine_with_document) in
  latest_document_id engine_with_document = Some "doc-1"
  ∧ latest_document_id reopened = None
  ∧ vector_store reopened = vector_store engine_with_document
  ∧ document_metadata reopened = document_metadata engine_with_document
  ∧ is_Some (document_metadata reopened !! "doc-1")
  ∧ query sample_float_repr sample_search sample_generate sample_question
          latest_filter reopened
    = (Ok (mkResponse no_documents_message [] None), reopened).
Proof.
  split; [reflexivity|]. split; [reflexivity|]. split; [reflexivity|].
  split; [reflexivity|]. split; [by eexists|].
  by apply query_short_circuit, resolve_latest_unset.
Qed.



(** The two stored units of the sample engine share a key, and the query
    returns one citation, with confidence 1.0 and the registry entry
    attached. *)
Example sample_response_has_one_citation :
  length (retrieved sample_search by_sample_id sample_question engine_with_document) = 2
  ∧ (src_file <$> sources sample_response) = [VStr "paris.txt"]
  ∧ (this <$> confidence sample_response) = Some (1 # 1)%Q
  ∧ ((λ c, bool_decide (is_Some (src_metadata c))) <$> sources sample_response)
    = [true].
Proof. split; [|split; [|split]]; vm_compute; reflexivity. Qed.

(** ** The chunker *)

Lemma pieces_empty target_size seps : Chunker.pieces target_size seps "" = [].
Proof. by destruct seps. Qed.

(** A text within the target size is one piece, whatever the separators. *)
Lemma pieces_within_target target_size seps text :
  text ≠ "" → (String.length text ≤ target_size)%nat →
  Chunker.pieces target_size seps text = [text].
Proof.
  intros Hne Hlen.
  assert (String.eqb text "" = false) as Hneb by by apply String.eqb_neq.
  assert (Nat.leb (String.length text) target_size = true) as Hleb
    by by apply Nat.leb_le.
  destruct seps; simpl; by rewrite Hneb, Hleb.
Qed.

Lemma merge_one_piece target_size overlap text :
  (String.length text ≤ target_size)%nat →
  Chunker.merge target_size overlap [] [text] = [text].
Proof.
  intros Hlen. simpl.
  assert (Nat.leb (String.length text) target_size = true) as ->
    by by apply Nat.leb_le.
  done.
Qed.

Lemma split_empty target_size overlap : Chunker.split "" target_size overlap = [].
Proof. unfold Chunker.split. by rewrite pieces_empty. Qed.

Lemma split_within_target target_size overlap text :
  text ≠ "" → (String.length text ≤ target_size)%nat →
  Chunker.split text target_size overlap = [text].
Proof.
  intros Hne Hlen. unfold Chunker.split.
  rewrite pieces_within_target by done. by apply merge_one_piece.
Qed.

Lemma append_empty_r (s : string) : s +:+ "" = s.
Proof.
  induction s as [|c s IH]; [done|].
  change (String c (s +:+ "") = String c s). by rewrite IH.
Qed.

Lemma append_assoc (s1 s2 s3 : string) : (s1 +:+ s2) +:+ s3 = s1 +:+ (s2 +:+ s3).
Proof.
  induction s1 as [|c s1 IH]; [done|].
  change (String c ((s1 +:+ s2) +:+ s3) = String c (s1 +:+ (s2 +:+ s3))).
  by rewrite IH.
Qed.

(** The pieces cut on a separator, put end to end, are the text. *)
Lemma concat_cons (x : string) (l : list string) :
  String.concat "" (x :: l) = x +:+ String.concat "" l.
Proof. destruct l; [by rewrite append_empty_r|done]. Qed.

Lemma cut_on_concat sep skip current s :
  String.concat "" (Chunker.cut_on sep skip current s) = current +:+ s.
Proof.
  assert (∀ a c s', (a +:+ String c "") +:+ s' = a +:+ String c s') as Hassoc.
  { intros a c s'. by rewrite append_assoc. }
  revert skip current.
  induction s as [|c s IH]; intros skip current; cbn [Chunker.cut_on].
  - destruct (String.eqb_spec current "") as [->|Hne]; [done|].
    rewrite concat_cons. reflexivity.
  - destruct skip as [|k]; [|by rewrite IH, Hassoc].
    destruct (String.prefix sep (String c s)); cbn [andb].
    + destruct (String.eqb_spec current "") as [->|Hne]; cbn [negb].
      * by rewrite IH, Hassoc.
      * by rewrite concat_cons, IH.
    + by rewrite IH, Hassoc.
Qed.

(** C9: the splitter with target size 1000 and overlap 200 is a function
    of its input, so equal texts and parameters give equal chunks; the
    empty text gives no chunk and no document; a non-empty text shorter
    than the target size gives exactly one chunk, the text itself, and one
    document. *)
Theorem C9_chunker_determinism_and_edge_cases text md :
  text ≠ "" →
  (String.length text < 1000)%nat →
  (∀ text1 text2 size1 size2 overlap1 overlap2,
     text1 = text2 → size1 = size2 → overlap1 = overlap2 →
     Chunker.split text1 size1 overlap1 = Chunker.split text2 size2 overlap2)
  ∧ Chunker.split "" 1000 200 = []
  ∧ split_text_into_documents Chunker.split_text "" md = []
  ∧ Chunker.split text 1000 200 = [text]
  ∧ ∃ doc, split_text_into_documents Chunker.split_text text md = [doc]
           ∧ page_content doc = text
           ∧ metadata doc !! "chunk" = Some (VInt 0).
Proof.
  intros Hne Hlen.
  assert (Chunker.split text 1000 200 = [text]) as Hsplit
    by (apply split_within_target; [done|lia]).
  split; [by intros; subst|]. split; [apply split_empty|].
  split; [unfold split_text_into_documents, Chunker.split_text;
          by rewrite split_empty|].
  split; [done|].
  unfold split_text_into_documents, Chunker.split_text. rewrite Hsplit. simpl.
  eexists. split; [done|]. split; [done|]. simpl.
  by rewrite lookup_insert_ne, lookup_insert_eq.
Qed.

Lemma C9_chunker_witness :
  (∀ text1 text2 size1 size2 overlap1 overlap2,
     text1 = text2 → size1 = size2 → overlap1 = overlap2 →
     Chunker.split text1 size1 overlap1 = Chunker.split text2 size2 overlap2)
  ∧ Chunker.split "" 1000 200 = []
  ∧ split_text_into_documents Chunker.split_text "" (file_metadata "txt" notes_path) = []
  ∧ Chunker.split "Paris is the capital of France." 1000 200
    = ["Paris is the capital of France."]
  ∧ ∃ doc, split_text_into_documents Chunker.split_text
             "Paris is the capital of France." (file_metadata "txt" notes_path) = [doc]
           ∧ page_content doc = "Paris is the capital of France."
           ∧ metadata doc !! "chunk" = Some (VInt 0).
Proof.
  apply (C9_chunker_determinism_and_edge_cases
           "Paris is the capital of France." (file_metadata "txt" notes_path)).
  - discriminate.
  - simpl. lia.
Defined.

(** The splitter on a text longer than the target size, with a small
    target: chunks of at most eight characters, cut at spaces first and
    within a word last, the second run overlapping by three characters. *)
Example split_small_target :
  Chunker.split "hello world foo bar baz" 8 3 = ["hello"; " world"; " foo bar"; " baz"]
  ∧ Chunker.split "abcdefghijklmnopqrstuvwxyz" 8 3
    = ["abcdefgh"; "fghijklm"; "klmnopqr"; "pqrstuvw"; "uvwxyz"].
Proof. split; reflexivity. Qed.

(** * Further properties of the code *)

(** ** What [add_documents] does to the collection *)

Lemma upsert_is_Some_iff entries vs k :
  is_Some (upsert entries vs !! k) ↔ k ∈ entries.*1 ∨ is_Some (vs !! k).
Proof.
  induction entries as [|e entries IH] using rev_ind.
  - split; [by right|]. intros [Hin|Hk]; [by apply elem_of_nil in Hin|done].
  - rewrite upsert_snoc, fmap_app, elem_of_app. simpl.
    destruct (decide (e.1 = k)) as [<-|Hne].
    + rewrite lookup_insert_eq. split; [|by eexists].
      intros _. left. right. apply list_elem_of_here.
    + rewrite lookup_insert_ne, IH by done. split.
      * intros [Hin|Hk]; [left; by left|by right].
      * intros [[Hin|Hin]|Hk]; [by left| |by right].
        apply list_elem_of_singleton in Hin. congruence.
Qed.

Lemma upsert_size entries vs :
  NoDup entries.*1 → (∀ k, k ∈ entries.*1 → vs !! k = None) →
  size (upsert entries vs) = length entries + size vs.
Proof.
  induction entries as [|e entries IH] using rev_ind; [done|].
  rewrite fmap_app. intros [Hnd [Hdisj _]]%list.NoDup_app Hfresh.
  rewrite upsert_snoc, map_size_insert_None.
  - rewrite IH, length_app; [simpl; lia|done|].
    intros k Hk. apply Hfresh, elem_of_app. by left.
  - rewrite upsert_lookup_other.
    + apply Hfresh, elem_of_app. right. apply list_elem_of_here.
    + intros Hin. apply (Hdisj _ Hin). apply list_elem_of_here.
Qed.

Lemma stored_units_keys env (documents : list Document) k :
  k ∈ (stored_units env documents).*1
  ↔ ∃ i, i < length documents ∧ chroma_id env i = k.
Proof.
  unfold stored_units. rewrite list_elem_of_fmap. split.
  - intros ([k' d] & -> & Hin). apply elem_of_lookup_imap in Hin as (i & d' & Heq & Hi).
    exists i. split; [by eapply lookup_lt_Some|]. by inversion Heq.
  - intros (i & Hi & <-). apply lookup_lt_is_Some in Hi as [d Hd].
    exists (chroma_id env i, d). split; [done|].
    by apply (elem_of_lookup_imap_2 (λ i d, (chroma_id env i, d))).
Qed.

(** [add_documents] changes nothing but the registry, the pointer to the
    latest document, the collection and the registry file. *)
Lemma add_documents_frame env documents source_type md self :
  let result := add_documents env documents source_type md self in
  current_web_ids result.2 = current_web_ids self
  ∧ memory result.2 = memory self.
Proof.
  unfold add_documents. destruct (add_raises env); [done|].
  by destruct (save_fails env).
Qed.

(** X1: a call of [add_documents] that completes only adds to the
    collection: the ids stored afterwards are the ids Chroma gave to the
    documents of the call together with the ids stored before, and every
    unit stored under another id is left exactly as it was. *)
Theorem X1_add_documents_only_adds env documents source_type md self :
  add_raises env = None →
  let after := (add_documents env documents source_type md self).2 in
  (∀ k, is_Some (vector_store after !! k)
        ↔ (∃ i, i < length documents ∧ chroma_id env i = k)
          ∨ is_Some (vector_store self !! k))
  ∧ (∀ k, (∀ i, i < length documents → chroma_id env i ≠ k) →
          vector_store after !! k = vector_store self !! k).
Proof.
  intros Hok after. unfold after.
  rewrite add_documents_vector_store by done. split.
  - intros k. rewrite upsert_is_Some_iff, stored_units_keys.
    by rewrite length_fmap.
  - intros k Hk. apply upsert_lookup_other.
    rewrite stored_units_keys, length_fmap. intros (i & Hi & Heq). by apply (Hk i).
Qed.

Lemma X1_add_documents_only_adds_witness :
  let after := (add_documents second_env [sample_document] "document" None
                              engine_with_document).2 in
  (∀ k, is_Some (vector_store after !! k)
        ↔ (∃ i, i < length [sample_document] ∧ chroma_id second_env i = k)
          ∨ is_Some (vector_store engine_with_document !! k))
  ∧ (∀ k, (∀ i, i < length [sample_document] → chroma_id second_env i ≠ k) →
          vector_store after !! k = vector_store engine_with_document !! k).
Proof.
  apply (X1_add_documents_only_adds second_env [sample_document] "document" None
           engine_with_document).
  reflexivity.
Defined.

(** X2: ingesting the same documents twice, under ids that are new each
    time, stores them twice: the collection grows by the number of
    documents at each call, both document ids are in the registry, and the
    pointer to the latest document is the second id. *)
Theorem X2_same_documents_twice_are_stored_twice
    env1 env2 documents source_type md self :
  add_raises env1 = None → add_raises env2 = None →
  uuid4 env1 ≠ uuid4 env2 →
  (∀ j k, j < length documents → k < length documents →
          chroma_id env1 j = chroma_id env1 k → j = k) →
  (∀ j k, j < length documents → k < length documents →
          chroma_id env2 j = chroma_id env2 k → j = k) →
  (∀ j k, j < length documents → k < length documents →
          chroma_id env1 j ≠ chroma_id env2 k) →
  (∀ j, j < length documents →
        vector_store self !! chroma_id env1 j = None
        ∧ vector_store self !! chroma_id env2 j = None) →
  let once := (add_documents env1 documents source_type md self).2 in
  let twice := (add_documents env2 documents source_type md once).2 in
  size (vector_store once) = size (vector_store self) + length documents
  ∧ size (vector_store twice) = size (vector_store self) + 2 * length documents
  ∧ is_Some (document_metadata twice !! uuid4 env1)
  ∧ is_Some (document_metadata twice !! uuid4 env2)
  ∧ latest_document_id twice = Some (uuid4 env2).
Proof.
  intros Hok1 Hok2 Hne Hinj1 Hinj2 Hdisj Hfresh once twice.
  pose proof (add_documents_registry env1 documents source_type md self)
    as [Hreg1 _].
  pose proof (add_documents_registry env2 documents source_type md once)
    as [Hreg2 Hlatest].
  fold once in Hreg1. fold twice in Hreg2, Hlatest.
  pose proof (add_documents_vector_store env1 documents source_type md self Hok1)
    as Hstore1.
  pose proof (add_documents_vector_store env2 documents source_type md once Hok2)
    as Hstore2.
  fold once in Hstore1. fold twice in Hstore2.
  assert (size (vector_store once) = size (vector_store self) + length documents)
    as Hsize1.
  { rewrite Hstore1, upsert_size.
    - unfold stored_units. rewrite length_imap, length_fmap. lia.
    - apply stored_units_NoDup. by rewrite length_fmap.
    - intros k (i & Hi & <-)%stored_units_keys. rewrite length_fmap in Hi.
      by apply Hfresh. }
  split; [done|]. split; [|split; [|split; [|done]]].
  - rewrite Hstore2, upsert_size.
    + unfold stored_units. rewrite length_imap, length_fmap, Hsize1. lia.
    + apply stored_units_NoDup. by rewrite length_fmap.
    + intros k (i & Hi & <-)%stored_units_keys. rewrite length_fmap in Hi.
      rewrite Hstore1, upsert_lookup_other; [by apply Hfresh|].
      intros (j & Hj & Heq)%stored_units_keys. rewrite length_fmap in Hj.
      by apply (Hdisj j i).
  - rewrite Hreg2, Hreg1, lookup_insert_ne by done.
    rewrite lookup_insert_eq. by eexists.
  - rewrite Hreg2, lookup_insert_eq. by eexists.
Qed.

Lemma X2_same_documents_twice_witness :
  let once := (add_documents sample_env [sample_document] "document" None
                             fresh_engine).2 in
  let twice := (add_documents second_env [sample_document] "document" None once).2 in
  size (vector_store once) = size (vector_store fresh_engine) + length [sample_document]
  ∧ size (vector_store twice)
    = size (vector_store fresh_engine) + 2 * length [sample_document]
  ∧ is_Some (document_metadata twice !! uuid4 sample_env)
  ∧ is_Some (document_metadata twice !! uuid4 second_env)
  ∧ latest_document_id twice = Some (uuid4 second_env).
Proof.
  apply (X2_same_documents_twice_are_stored_twice
           sample_env second_env [sample_document] "document" None fresh_engine).
  - reflexivity.
  - reflexivity.
  - discriminate.
  - simpl. lia.
  - simpl. lia.
  - intros j k Hj Hk. simpl in Hj, Hk.
    assert (j = 0) as -> by lia. assert (k = 0) as -> by lia. discriminate.
  - intros j Hj. simpl in Hj. assert (j = 0) as -> by lia. split; reflexivity.
Defined.

(** ** Failures inside [add_documents] *)

(** X3: when the write to the vector store raises, [add_documents] has
    already recorded the registry entry and moved the pointer to the latest
    document.  A file ingestion in which this happens returns [False] with
    the collection and the registry file as before, but with the new id in
    the registry and as latest document, so that the next query for the
    latest document is filtered by an id for which the call stored
    nothing. *)
Theorem X3_failed_store_write_still_moves_latest_pointer
    split_text fs ingestion_time env file_path self documents e :
  process_file split_text fs file_path = Ok documents →
  documents ≠ [] →
  add_raises env = Some e →
  uuid4 env ≠ "" →
  let result := ingest_file split_text fs ingestion_time env file_path self in
  result.1 = false
  ∧ vector_store result.2 = vector_store self
  ∧ metadata_file result.2 = metadata_file self
  ∧ latest_document_id result.2 = Some (uuid4 env)
  ∧ is_Some (document_metadata result.2 !! uuid4 env)
  ∧ resolve_latest result.2 latest_filter
    = Some (Some {["document_id" := VStr (uuid4 env)]}).
Proof.
  intros Hproc Hne Hadd Hid. unfold ingest_file. rewrite Hproc.
  destruct documents as [|d documents]; [done|].
  unfold add_documents. rewrite Hadd. simpl.
  split; [done|]. split; [done|]. split; [done|]. split; [done|].
  split; [rewrite lookup_insert_eq; by eexists|].
  unfold resolve_latest. simpl.
  by rewrite (proj2 (String.eqb_neq _ _) Hid).
Qed.

Lemma X3_failed_store_write_witness :
  let result := ingest_file Chunker.split_text sample_fs "2024-01-03 00:00:00"
                            failing_store_env notes_path engine_with_document in
  result.1 = false
  ∧ vector_store result.2 = vector_store engine_with_document
  ∧ metadata_file result.2 = metadata_file engine_with_document
  ∧ latest_document_id result.2 = Some (uuid4 failing_store_env)
  ∧ is_Some (document_metadata result.2 !! uuid4 failing_store_env)
  ∧ resolve_latest result.2 latest_filter
    = Some (Some {["document_id" := VStr (uuid4 failing_store_env)]}).
Proof.
  apply (X3_failed_store_write_still_moves_latest_pointer
           Chunker.split_text sample_fs "2024-01-03 00:00:00" failing_store_env
           notes_path engine_with_document
           (split_text_into_documents Chunker.split_text
              "Paris is the capital of France." (file_metadata "txt" notes_path))
           (OtherError "embedding failed")).
  - reflexivity.
  - vm_compute. discriminate.
  - reflexivity.
  - discriminate.
Defined.

(** ** The registry across a restart *)

(** X4: after a call of [add_documents] that completes and writes the
    registry file, an engine opened on the same persistence directory has
    the same collection and the same registry, the new entry included,
    whatever the registry file held before the call. *)
Theorem X4_registry_and_collection_survive_restart
    env documents source_type md self :
  add_raises env = None →
  save_fails env = SaveOk →
  let after := (add_documents env documents source_type md self).2 in
  let reopened := __init__ (vector_store after) (metadata_file after) in
  vector_store reopened = vector_store after
  ∧ document_metadata reopened = document_metadata after
  ∧ document_metadata reopened !! uuid4 env
    = Some (registry_entry source_type (now env) md).
Proof.
  intros Hadd Hsave after reopened.
  pose proof (add_documents_completes env documents source_type md self Hadd Hsave)
    as [_ Hfile].
  pose proof (add_documents_registry env documents source_type md self) as [Hreg _].
  fold after in Hfile, Hreg.
  assert (document_metadata reopened = document_metadata after) as Heq.
  { unfold reopened, __init__, _load_document_metadata. simpl. by rewrite Hfile. }
  split; [|split; [done|]].
  - unfold reopened, __init__, _load_document_metadata. simpl.
    by destruct (metadata_file after).
  - by rewrite Heq, Hreg, lookup_insert_eq.
Qed.

Lemma X4_registry_survives_restart_witness :
  let after := (add_documents sample_env [sample_document] "document" None
                              fresh_engine).2 in
  let reopened := __init__ (vector_store after) (metadata_file after) in
  vector_store reopened = vector_store after
  ∧ document_metadata reopened = document_metadata after
  ∧ document_metadata reopened !! uuid4 sample_env
    = Some (registry_entry "document" (now sample_env) None).
Proof.
  apply (X4_registry_and_collection_survive_restart
           sample_env [sample_document] "document" None fresh_engine);
    reflexivity.
Defined.

(** X5: a failure to write the registry file is not reported:
    [add_documents] returns normally and the units are stored.  After a
    restart the registry is the one the old file held when the file could
    not be opened, and it is empty when [json.dump] failed after the file
    was truncated; the stored units then refer to a document id the
    registry may not know. *)
Theorem X5_unreported_save_failure_loses_registry_entries
    env documents source_type md self :
  add_raises env = None →
  save_fails env ≠ SaveOk →
  let result := add_documents env documents source_type md self in
  let reopened := __init__ (vector_store result.2) (metadata_file result.2) in
  result.1 = Ok ()
  ∧ vector_store reopened
    = upsert (stored_units env (stamp source_type (uuid4 env) md <$> documents))
             (vector_store self)
  ∧ document_metadata reopened
    = match save_fails env with
      | DumpFails => ∅
      | _ => document_metadata (__init__ (vector_store self) (metadata_file self))
      end.
Proof.
  intros Hadd Hsave result reopened.
  unfold reopened, result, add_documents. rewrite Hadd.
  destruct (save_fails env); [done| |]; simpl.
  - split; [done|]. unfold __init__, _load_document_metadata. simpl.
    by destruct (metadata_file self).
  - done.
Qed.

Lemma X5_unreported_save_failure_witness :
  let result := add_documents unwritable_env [sample_document] "document" None
                              engine_with_document in
  let reopened := __init__ (vector_store result.2) (metadata_file result.2) in
  result.1 = Ok ()
  ∧ vector_store reopened
    = upsert (stored_units unwritable_env
                (stamp "document" (uuid4 unwritable_env) None <$> [sample_document]))
             (vector_store engine_with_document)
  ∧ document_metadata reopened
    = match save_fails unwritable_env with
      | DumpFails => ∅
      | _ => document_metadata
               (__init__ (vector_store engine_with_document)
                         (metadata_file engine_with_document))
      end.
Proof.
  apply (X5_unreported_save_failure_loses_registry_entries
           unwritable_env [sample_document] "document" None engine_with_document).
  - reflexivity.
  - discriminate.
Defined.

(** ** What the calls leave alone *)

(** A query, and [chat] around it, change the conversation memory only,
    by at most one turn. *)
Lemma query_frame float_repr search generate question source_filter self :
  let after := (query float_repr search generate question source_filter self).2 in
  vector_store after = vector_store self
  ∧ document_metadata after = document_metadata self
  ∧ latest_document_id after = latest_document_id self
  ∧ current_web_ids after = current_web_ids self
  ∧ metadata_file after = metadata_file self
  ∧ (memory after = memory self
     ∨ ∃ text, memory after = memory self ++ [(question, text)]).
Proof.
  unfold query. destruct (resolve_latest self source_filter) as [resolved|];
    [|simpl; by repeat split; try left].
  unfold chain_ainvoke. destruct (generate _ _ _) as [text|e];
    [|simpl; by repeat split; try left].
  simpl. destruct (process_sources _ _ _ _) as [|c cs].
  - simpl. repeat split; try done. right. by exists text.
  - destruct (relevance_sum (c :: cs)); simpl; repeat split; try done;
      right; by exists text.
Qed.

Lemma chat_engine float_repr search generate question source_filter self :
  (chat float_repr search generate question source_filter self).2
  = (query float_repr search generate question source_filter self).2.
Proof.
  unfold chat.
  destruct (query float_repr search generate question source_filter self)
    as [[response|e] after]; [|done].
  simpl. by destruct (chat_source _ <$> _).
Qed.

Lemma ingest_file_cases split_text fs ingestion_time env file_path self :
  let after := (ingest_file split_text fs ingestion_time env file_path self).2 in
  after = self
  ∨ ∃ documents md, after = (add_documents env documents "file" md self).2.
Proof.
  intros after. unfold after, ingest_file.
  destruct (process_file _ _ _) as [[|d documents]|e]; [by left| |by left].
  right. exists (d :: documents).
  match goal with
  | |- context [add_documents _ _ _ ?m _] => exists m
  end.
  by destruct (add_documents _ _ _ _ _) as [[[]|?] ?].
Qed.

Lemma cleanup_tracked fault self :
  let cleaned := _cleanup_web_results fault self in
  cleaned = self ∨ current_web_ids cleaned = ∅.
Proof.
  unfold _cleanup_web_results. case_bool_decide; [by left|].
  destruct fault; [by left|]. by right.
Qed.

Lemma prefix_append (p s : string) : String.prefix p (p +:+ s) = true.
Proof.
  induction p as [|a p IH]; [by destruct s|].
  change (String a p +:+ s) with (String a (p +:+ s)).
  cbn [String.prefix]. by destruct (ascii_dec a a).
Qed.

Lemma web_id_prefix url i : String.prefix "web_" (web_id url i) = true.
Proof. apply prefix_append. Qed.

Lemma web_doc_ids_elem url (chunks : list string) t :
  t ∈ web_doc_ids url chunks → ∃ i, i < length chunks ∧ t = web_id url i.
Proof.
  unfold web_doc_ids. intros (i & chunk & -> & Hi)%elem_of_lookup_imap.
  exists i. split; [by eapply lookup_lt_Some|done].
Qed.

Section RunProperties.

Variable split_text : string → list string.
Variable float_repr : Qc → string.
Variable search :
  option (gmap string value) → gmap string Document → list (string * string) →
  string → list Document.
Variable generate : string → list Document → list (string * string) → outcome string.

Lemma add_documents_well_formed env documents source_type md self :
  well_formed self →
  well_formed (add_documents env documents source_type md self).2.
Proof.
  intros (Hstored & Hprefix & _).
  pose proof (add_documents_frame env documents source_type md self) as [Hweb _].
  pose proof (add_documents_registry env documents source_type md self)
    as [Hreg Hlatest].
  split; [|split].
  - intros t Ht. rewrite Hweb in Ht. apply Hstored in Ht.
    unfold add_documents. destruct (add_raises env); [done|].
    destruct (save_fails env); simpl; by apply upsert_is_Some.
  - intros t Ht. rewrite Hweb in Ht. by apply Hprefix.
  - intros id. rewrite Hlatest, Hreg. intros [= <-].
    rewrite lookup_insert_eq. by eexists.
Qed.

Lemma ingest_web_page_well_formed env url self :
  well_formed self → well_formed (ingest_web_page split_text env url self).2.
Proof.
  intros (Hstored & Hprefix & Hlatest).
  pose proof (ingest_web_page_registry split_text env url self) as (Hreg & Hl & _).
  assert (∀ t, t ∈ current_web_ids (_cleanup_web_results (cleanup_raises env) self) →
               is_Some (vector_store (_cleanup_web_results (cleanup_raises env) self) !! t)
               ∧ String.prefix "web_" t = true) as Hclean.
  { destruct (cleanup_tracked (cleanup_raises env) self) as [-> | ->].
    - intros t Ht. split; [by apply Hstored|by apply Hprefix].
    - by intros t Ht%elem_of_empty. }
  split; [|split].
  - destruct (ingest_web_page_store split_text env url self)
      as [(_ & Hs & Hw)|(page & _ & _ & Hs & Hw)]; rewrite Hs, Hw.
    + intros t Ht. by apply Hclean.
    + intros t [Ht|Ht%elem_of_list_to_set]%elem_of_union.
      * apply upsert_is_Some. by apply Hclean.
      * apply upsert_is_Some_iff. left. by rewrite web_entries_keys.
  - destruct (ingest_web_page_store split_text env url self)
      as [(_ & _ & Hw)|(page & _ & _ & _ & Hw)]; rewrite Hw.
    + intros t Ht. by apply Hclean.
    + intros t [Ht|Ht%elem_of_list_to_set]%elem_of_union.
      * by apply Hclean.
      * apply web_doc_ids_elem in Ht as (i & _ & ->). apply web_id_prefix.
  - intros id. rewrite Hl, Hreg. apply Hlatest.
Qed.

Lemma step_well_formed self op :
  well_formed self → well_formed (step split_text float_repr search generate self op).
Proof.
  intros Hwf. destruct op as [env documents source_type md|fs time env file_path
                             |env url|question source_filter|]; simpl.
  - by apply add_documents_well_formed.
  - destruct (ingest_file_cases split_text fs time env file_path self)
      as [-> | (documents & md & ->)]; [done|].
    by apply add_documents_well_formed.
  - by apply ingest_web_page_well_formed.
  - rewrite chat_engine.
    pose proof (query_frame float_repr search generate question source_filter self)
      as (Hs & Hr & Hl & Hw & _).
    destruct Hwf as (Hstored & Hprefix & Hlatest).
    split; [|split].
    + intros t. rewrite Hw, Hs. apply Hstored.
    + intros t. rewrite Hw. apply Hprefix.
    + intros id. rewrite Hl, Hr. apply Hlatest.
  - done.
Qed.

Lemma run_well_formed ops self :
  well_formed self → well_formed (run split_text float_repr search generate ops self).
Proof.
  revert self. induction ops as [|op ops IH]; intros self Hwf; [done|].
  apply IH. by apply step_well_formed.
Qed.

Lemma init_well_formed store file : well_formed (__init__ store file).
Proof.
  split; [|split].
  - intros t. by destruct file; intros ?%elem_of_empty.
  - intros t. by destruct file; intros ?%elem_of_empty.
  - intros id. by destruct file.
Qed.


(** A unit whose id is not a web id, and a registry entry, are still there
    after one more call. *)
Lemma step_keeps_documents self op id doc_id :
  well_formed self →
  String.prefix "web_" id = false →
  is_Some (vector_store self !! id) →
  is_Some (document_metadata self !! doc_id) →
  let after := step split_text float_repr search generate self op in
  is_Some (vector_store after !! id) ∧ is_Some (document_metadata after !! doc_id).
Proof.
  intros (Hstored & Hprefix & Hlatest) Hid Hunit Hentry.
  assert (∀ env documents source_type md,
            is_Some (vector_store (add_documents env documents source_type md self).2
                       !! id)
            ∧ is_Some (document_metadata
                         (add_documents env documents source_type md self).2
                         !! doc_id)) as Hadd.
  { intros env documents source_type md. split.
    - unfold add_documents. destruct (add_raises env); [done|].
      destruct (save_fails env); simpl; by apply upsert_is_Some.
    - pose proof (add_documents_registry env documents source_type md self)
        as [Hr _]. rewrite Hr.
      destruct (decide (uuid4 env = doc_id)) as [->|Hne].
      + rewrite lookup_insert_eq. by eexists.
      + by rewrite lookup_insert_ne. }
  destruct op as [env documents source_type md|fs time env file_path
                 |env url|question source_filter|]; simpl.
  - apply Hadd.
  - destruct (ingest_file_cases split_text fs time env file_path self)
      as [-> | (documents & md & ->)]; [done|apply Hadd].
  - pose proof (ingest_web_page_registry split_text env url self) as (Hr & _).
    rewrite Hr. split; [|done].
    assert (id ∉ current_web_ids self) as Hout.
    { intros Hin%Hprefix. congruence. }
    pose proof (cleanup_keeps_untracked (cleanup_raises env) self id Hout) as Hkeep.
    destruct (ingest_web_page_store split_text env url self)
      as [(_ & Hs & _)|(page & _ & _ & Hs & _)]; rewrite Hs.
    + by rewrite Hkeep.
    + apply upsert_is_Some. by rewrite Hkeep.
  - rewrite chat_engine.
    pose proof (query_frame float_repr search generate question source_filter self)
      as (Hs & Hr & _). by rewrite Hs, Hr.
  - done.
Qed.

(** X8: nothing that [add_documents] stored is ever removed.  A unit whose
    id is not a web id, once stored, is stored after any further calls,
    and so is every registry entry: only units of web batches are
    evicted, and the registry only grows. *)
Theorem X8_documents_and_registry_entries_are_never_removed
    ops_before ops_after store file id doc_id :
  let earlier :=
    run split_text float_repr search generate ops_before (__init__ store file) in
  let later := run split_text float_repr search generate ops_after earlier in
  String.prefix "web_" id = false →
  is_Some (vector_store earlier !! id) →
  is_Some (document_metadata earlier !! doc_id) →
  is_Some (vector_store later !! id) ∧ is_Some (document_metadata later !! doc_id).
Proof.
  intros earlier later Hid.
  assert (well_formed earlier) as Hwf
    by apply run_well_formed, init_well_formed.
  unfold later. clearbody earlier. clear later.
  revert earlier Hwf. induction ops_after as [|op ops IH];
    intros earlier Hwf Hunit Hentry; [done|].
  simpl.
  destruct (step_keeps_documents earlier op id doc_id Hwf Hid Hunit Hentry)
    as [Hunit' Hentry'].
  apply IH; [by apply step_well_formed|done|done].
Qed.

End RunProperties.

Lemma X8_documents_never_removed_witness :
  let earlier :=
    run Chunker.split_text sample_float_repr sample_search sample_generate
        sample_ingestion (__init__ ∅ Missing) in
  let later :=
    run Chunker.split_text sample_float_repr sample_search sample_generate
        sample_session earlier in
  is_Some (vector_store later !! "unit-0")
  ∧ is_Some (document_metadata later !! "doc-1").
Proof.
  apply (X8_documents_and_registry_entries_are_never_removed
           Chunker.split_text sample_float_repr sample_search sample_generate
           sample_ingestion sample_session ∅ Missing "unit-0" "doc-1").
  - reflexivity.
  - eexists. vm_compute. reflexivity.
  - eexists. vm_compute. reflexivity.
Defined.

(** ** Web units and a restart *)

(** X6: the tracked web batch is not persisted.  On an engine reopened on
    the same persistence directory the tracked set is empty, so the cleanup
    that precedes a web ingestion deletes nothing: a web unit stored
    before the restart is still stored after the next web ingestion. *)
Theorem X6_web_units_stored_before_restart_are_not_evicted
    split_text env url self id :
  id ∈ current_web_ids self →
  is_Some (vector_store self !! id) →
  let reopened := __init__ (vector_store self) (metadata_file self) in
  let after := (ingest_web_page split_text env url reopened).2 in
  current_web_ids reopened = ∅
  ∧ is_Some (vector_store after !! id).
Proof.
  intros _ Hid reopened after.
  assert (current_web_ids reopened = ∅) as Hempty.
  { unfold reopened, __init__, _load_document_metadata. simpl.
    by destruct (metadata_file self). }
  assert (vector_store reopened = vector_store self) as Hstore.
  { unfold reopened, __init__, _load_document_metadata. simpl.
    by destruct (metadata_file self). }
  split; [done|].
  assert (_cleanup_web_results (cleanup_raises env) reopened = reopened) as Hclean.
  { unfold _cleanup_web_results. by rewrite Hempty, bool_decide_eq_true_2. }
  unfold after.
  destruct (ingest_web_page_store split_text env url reopened)
    as [(_ & Hs & _)|(page & _ & _ & Hs & _)]; rewrite Hs, Hclean, Hstore.
  - done.
  - by apply upsert_is_Some.
Qed.

Lemma X6_web_units_witness :
  let self := (ingest_web_page Chunker.split_text alpha_page alpha_url
                               engine_with_document).2 in
  let reopened := __init__ (vector_store self) (metadata_file self) in
  let after := (ingest_web_page Chunker.split_text beta_page beta_url reopened).2 in
  current_web_ids reopened = ∅
  ∧ is_Some (vector_store after !! "web_http://a.example_0").
Proof.
  apply (X6_web_units_stored_before_restart_are_not_evicted
           Chunker.split_text beta_page beta_url
           (ingest_web_page Chunker.split_text alpha_page alpha_url
                            engine_with_document).2
           "web_http://a.example_0").
  - apply elem_of_elements. vm_compute. apply list_elem_of_here.
  - eexists. vm_compute. reflexivity.
Defined.

(** ** The metadata of the units of a file *)

(** The value of any key after the stamp of [add_documents]. *)
Lemma stamp_lookup source_type doc_id md doc k :
  metadata (stamp source_type doc_id md doc) !! k
  = match md ≫= (.!! k) with
    | Some v => Some v
    | None =>
        if decide (k = "document_id") then Some (VStr doc_id)
        else if decide (k = "source_type") then Some (VStr source_type)
        else metadata doc !! k
    end.
Proof.
  destruct doc as [content dmd]. unfold stamp. simpl.
  assert ((<["document_id" := VStr doc_id]>
             (<["source_type" := VStr source_type]> dmd)) !! k
          = if decide (k = "document_id") then Some (VStr doc_id)
            else if decide (k = "source_type") then Some (VStr source_type)
            else dmd !! k) as Hstamped.
  { destruct (decide (k = "document_id")) as [->|Hd];
      [by rewrite lookup_insert_eq|].
    rewrite lookup_insert_ne by done.
    destruct (decide (k = "source_type")) as [->|Hs];
      [by rewrite lookup_insert_eq|].
    by rewrite lookup_insert_ne. }
  destruct md as [m|]; simpl; [|done].
  case_bool_decide as Hm; simpl.
  - subst m. by rewrite lookup_empty.
  - rewrite lookup_union, Hstamped.
    destruct (m !! k) as [v|]; simpl; repeat case_decide; try done;
      by destruct (dmd !! k).
Qed.

(** X10: the units a file ingestion stores carry the metadata of the
    ingestion over that of the processor: ["file_type"] is the lower-cased
    suffix with its dot (the processor's tag, such as ["txt"], is
    replaced), ["total_chunks"] is the number of units of the whole file,
    and the chunk locator the processor wrote is kept. *)
Theorem X10_file_units_carry_ingestion_metadata
    split_text fs ingestion_time env file_path self documents i doc :
  process_file split_text fs file_path = Ok documents →
  add_raises env = None →
  (∀ j k, j < length documents → k < length documents →
          chroma_id env j = chroma_id env k → j = k) →
  documents !! i = Some doc →
  ∃ unit,
    vector_store (ingest_file split_text fs ingestion_time env file_path self).2
      !! chroma_id env i = Some unit
    ∧ page_content unit = page_content doc
    ∧ metadata unit !! "file_type" = Some (VStr (lower (path_suffix file_path)))
    ∧ metadata unit !! "file" = Some (VStr (path_name file_path))
    ∧ metadata unit !! "ingestion_time" = Some (VStr ingestion_time)
    ∧ metadata unit !! "total_chunks" = Some (VInt (Z.of_nat (length documents)))
    ∧ metadata unit !! "chunk" = metadata doc !! "chunk"
    ∧ metadata unit !! "chunk_size" = metadata doc !! "chunk_size"
    ∧ metadata unit !! "page" = metadata doc !! "page".
Proof.
  intros Hproc Hok Hinj Hdoc.
  assert (∃ md : gmap string value,
            md !! "file_type" = Some (VStr (lower (path_suffix file_path)))
            ∧ md !! "file" = Some (VStr (path_name file_path))
            ∧ md !! "ingestion_time" = Some (VStr ingestion_time)
            ∧ md !! "total_chunks" = Some (VInt (Z.of_nat (length documents)))
            ∧ md !! "chunk" = None ∧ md !! "chunk_size" = None ∧ md !! "page" = None
            ∧ (ingest_file split_text fs ingestion_time env file_path self).2
              = (add_documents env documents "file" (Some md) self).2)
    as (md & Hft & Hf & Ht & Htc & Hc & Hcs & Hp & ->).
  { unfold ingest_file. rewrite Hproc.
    destruct documents as [|d documents]; [done|].
    match goal with
    | |- context [add_documents _ _ _ (Some ?m) _] => exists m
    end.
    do 7 (split; [by vm_compute|]).
    by destruct (add_documents _ _ _ _ _) as [[[]|?] ?]. }
  exists (stamp "file" (uuid4 env) (Some md) doc).
  rewrite add_documents_vector_store by done.
  rewrite stamp_page_content, !stamp_lookup. simpl.
  rewrite Hft, Hf, Ht, Htc, Hc, Hcs, Hp.
  split; [|done].
  apply upsert_lookup_entry.
  - apply stored_units_NoDup. by rewrite length_fmap.
  - apply list_elem_of_lookup. exists i.
    unfold stored_units. by rewrite list_lookup_imap, list_lookup_fmap, Hdoc.
Qed.

Lemma X10_file_units_witness :
  ∃ unit,
    vector_store (ingest_file Chunker.split_text sample_fs "2024-01-01 00:00:00"
                              sample_env notes_path fresh_engine).2
      !! chroma_id sample_env 0 = Some unit
    ∧ page_content unit
      = page_content (mkDocument "Paris is the capital of France."
                        (<["chunk_size" := VInt 31]>
                           (<["chunk" := VInt 0]> (file_metadata "txt" notes_path))))
    ∧ metadata unit !! "file_type" = Some (VStr (lower (path_suffix notes_path)))
    ∧ metadata unit !! "file" = Some (VStr (path_name notes_path))
    ∧ metadata unit !! "ingestion_time" = Some (VStr "2024-01-01 00:00:00")
    ∧ metadata unit !! "total_chunks"
      = Some (VInt (Z.of_nat (length
                 (split_text_into_documents Chunker.split_text
                    "Paris is the capital of France."
                    (file_metadata "txt" notes_path)))))
    ∧ metadata unit !! "chunk"
      = metadata (mkDocument "Paris is the capital of France."
                    (<["chunk_size" := VInt 31]>
                       (<["chunk" := VInt 0]> (file_metadata "txt" notes_path))))
          !! "chunk"
    ∧ metadata unit !! "chunk_size"
      = metadata (mkDocument "Paris is the capital of France."
                    (<["chunk_size" := VInt 31]>
                       (<["chunk" := VInt 0]> (file_metadata "txt" notes_path))))
          !! "chunk_size"
    ∧ metadata unit !! "page"
      = metadata (mkDocument "Paris is the capital of France."
                    (<["chunk_size" := VInt 31]>
                       (<["chunk" := VInt 0]> (file_metadata "txt" notes_path))))
          !! "page".
Proof.
  apply (X10_file_units_carry_ingestion_metadata
           Chunker.split_text sample_fs "2024-01-01 00:00:00" sample_env notes_path
           fresh_engine
           (split_text_into_documents Chunker.split_text
              "Paris is the capital of France." (file_metadata "txt" notes_path))
           0).
  - reflexivity.
  - reflexivity.
  - intros j k Hj Hk. vm_compute in Hj, Hk. lia.
  - reflexivity.
Defined.

(** ** The documents of the file processors *)

Lemma split_text_into_documents_elem split_text text md d :
  d ∈ split_text_into_documents split_text text md
  ↔ ∃ i chunk,
      split_text text !! i = Some chunk
      ∧ d = mkDocument chunk
              (<["chunk_size" := VInt (Z.of_nat (String.length chunk))]>
                 (<["chunk" := VInt (Z.of_nat i)]> md)).
Proof.
  unfold split_text_into_documents. rewrite elem_of_lookup_imap.
  split; intros (i & chunk & H1 & H2); exists i, chunk; done.
Qed.

Lemma elem_of_concat {A} (x : A) (ls : list (list A)) :
  x ∈ concat ls ↔ ∃ l, x ∈ l ∧ l ∈ ls.
Proof.
  induction ls as [|l ls IH]; simpl.
  - split; [by intros ?%elem_of_nil|]. by intros (l & _ & ?%elem_of_nil).
  - rewrite elem_of_app, IH. split.
    + intros [Hx|(l' & Hx & Hl')].
      * exists l. split; [done|apply list_elem_of_here].
      * exists l'. split; [done|by apply list_elem_of_further].
    + intros (l' & Hx & [->|Hl']%elem_of_cons); [by left|].
      right. by exists l'.
Qed.

Lemma process_pdf_file_elem split_text fs file_path pages documents d :
  fitz_pages fs file_path = Ok pages →
  process_pdf_file split_text fs file_path = Ok documents →
  d ∈ documents →
  ∃ page_num text i chunk,
    pages !! page_num = Some text ∧ strip_truthy text = true
    ∧ split_text text !! i = Some chunk
    ∧ d = mkDocument chunk
            (<["chunk_size" := VInt (Z.of_nat (String.length chunk))]>
               (<["chunk" := VInt (Z.of_nat i)]>
                  (<["page" := VInt (Z.of_nat page_num + 1)]>
                     (file_metadata "pdf" file_path)))).
Proof.
  intros Hpages. unfold process_pdf_file. rewrite Hpages. intros [= <-].
  intros (docs & Hd & Hdocs)%elem_of_concat.
  apply elem_of_lookup_imap in Hdocs as (page_num & text & -> & Htext).
  destruct (strip_truthy text) eqn:Hblank; [|by apply elem_of_nil in Hd].
  apply split_text_into_documents_elem in Hd as (i & chunk & Hchunk & ->).
  by exists page_num, text, i, chunk.
Qed.

(** X11: every document [process_pdf_file] returns comes from a page that
    has text: its ["page"] is the 1-based number of such a page of the file,
    its content is a chunk of that page's text, ["chunk"] is the position of
    the chunk within the page and ["chunk_size"] the length of the content.
    A page without text gives no document. *)
Theorem X11_pdf_documents_locate_a_page_with_text
    split_text fs file_path pages documents d :
  fitz_pages fs file_path = Ok pages →
  process_pdf_file split_text fs file_path = Ok documents →
  d ∈ documents →
  ∃ page_num text i,
    pages !! page_num = Some text
    ∧ strip_truthy text = true
    ∧ split_text text !! i = Some (page_content d)
    ∧ metadata d !! "page" = Some (VInt (Z.of_nat page_num + 1))
    ∧ (1 ≤ Z.of_nat page_num + 1 ≤ Z.of_nat (length pages))%Z
    ∧ metadata d !! "chunk" = Some (VInt (Z.of_nat i))
    ∧ metadata d !! "chunk_size" = Some (VInt (Z.of_nat (String.length (page_content d))))
    ∧ metadata d !! "file" = Some (VStr (path_name file_path)).
Proof.
  intros Hpages Hproc Hd.
  destruct (process_pdf_file_elem _ _ _ _ _ _ Hpages Hproc Hd)
    as (page_num & text & i & chunk & Htext & Hblank & Hchunk & ->).
  exists page_num, text, i. simpl.
  split; [done|]. split; [done|]. split; [done|].
  split; [by do 2 (rewrite lookup_insert_ne by done); rewrite lookup_insert_eq|].
  split; [apply lookup_lt_Some in Htext; lia|].
  split; [by rewrite lookup_insert_ne by done; rewrite lookup_insert_eq|].
  split; [by rewrite lookup_insert_eq|].
  do 3 (rewrite lookup_insert_ne by done). by vm_compute.
Qed.

Lemma X11_pdf_documents_witness :
  ∃ page_num text i,
    ["Introduction."; "  "; "Conclusion."] !! page_num = Some text
    ∧ strip_truthy text = true
    ∧ Chunker.split_text text !! i
      = Some (page_content
                (mkDocument "Conclusion."
                   (<["chunk_size" := VInt 11]>
                      (<["chunk" := VInt 0]>
                         (<["page" := VInt 3]> (file_metadata "pdf" paper_path))))))
    ∧ metadata (mkDocument "Conclusion."
                  (<["chunk_size" := VInt 11]>
                     (<["chunk" := VInt 0]>
                        (<["page" := VInt 3]> (file_metadata "pdf" paper_path)))))
        !! "page" = Some (VInt (Z.of_nat page_num + 1))
    ∧ (1 ≤ Z.of_nat page_num + 1
       ≤ Z.of_nat (length ["Introduction."; "  "; "Conclusion."]))%Z
    ∧ metadata (mkDocument "Conclusion."
                  (<["chunk_size" := VInt 11]>
                     (<["chunk" := VInt 0]>
                        (<["page" := VInt 3]> (file_metadata "pdf" paper_path)))))
        !! "chunk" = Some (VInt (Z.of_nat i))
    ∧ metadata (mkDocument "Conclusion."
                  (<["chunk_size" := VInt 11]>
                     (<["chunk" := VInt 0]>
                        (<["page" := VInt 3]> (file_metadata "pdf" paper_path)))))
        !! "chunk_size"
      = Some (VInt (Z.of_nat (String.length
           (page_content
              (mkDocument "Conclusion."
                 (<["chunk_size" := VInt 11]>
                    (<["chunk" := VInt 0]>
                       (<["page" := VInt 3]> (file_metadata "pdf" paper_path)))))))))
    ∧ metadata (mkDocument "Conclusion."
                  (<["chunk_size" := VInt 11]>
                     (<["chunk" := VInt 0]>
                        (<["page" := VInt 3]> (file_metadata "pdf" paper_path)))))
        !! "file" = Some (VStr (path_name paper_path)).
Proof.
  apply (X11_pdf_documents_locate_a_page_with_text
           Chunker.split_text paper_fs paper_path
           ["Introduction."; "  "; "Conclusion."]
           [mkDocument "Introduction."
              (<["chunk_size" := VInt 13]>
                 (<["chunk" := VInt 0]>
                    (<["page" := VInt 1]> (file_metadata "pdf" paper_path))));
            mkDocument "Conclusion."
              (<["chunk_size" := VInt 11]>
                 (<["chunk" := VInt 0]>
                    (<["page" := VInt 3]> (file_metadata "pdf" paper_path))))]).
  - reflexivity.
  - vm_compute. reflexivity.
  - apply list_elem_of_further, list_elem_of_here.
Defined.

(** X12: the chunk index of a PDF starts again at 0 on every page, and the
    key by which [query] de-duplicates its citations is made of the file
    name and the chunk index only.  Two units of one PDF with the same
    chunk index therefore have the same key, whatever their pages, and a
    retrieval that returns both is cited once, by the first. *)
Theorem X12_pdf_units_of_different_pages_share_a_citation_key
    split_text float_repr fs file_path pages documents registry d1 d2 :
  fitz_pages fs file_path = Ok pages →
  process_pdf_file split_text fs file_path = Ok documents →
  d1 ∈ documents → d2 ∈ documents →
  metadata d1 !! "chunk" = metadata d2 !! "chunk" →
  chunk_id float_repr d1 = chunk_id float_repr d2
  ∧ process_sources float_repr registry ∅ [d1; d2] = [source_info registry d1].
Proof.
  intros Hpages Hproc Hd1 Hd2 Hchunk.
  assert (∀ d, d ∈ documents →
               metadata d !! "file" = Some (VStr (path_name file_path))) as Hfile.
  { intros d Hd.
    destruct (process_pdf_file_elem _ _ _ _ _ _ Hpages Hproc Hd)
      as (page_num & text & i & chunk & _ & _ & _ & ->).
    simpl. do 3 (rewrite lookup_insert_ne by done). by vm_compute. }
  assert (chunk_id float_repr d1 = chunk_id float_repr d2) as Hkey.
  { unfold chunk_id. by rewrite (Hfile d1 Hd1), (Hfile d2 Hd2), Hchunk. }
  split; [done|]. simpl.
  rewrite bool_decide_eq_false_2 by apply not_elem_of_empty.
  rewrite bool_decide_eq_true_2; [done|].
  rewrite <- Hkey. apply elem_of_union_l, elem_of_singleton. done.
Qed.

Lemma X12_pdf_units_witness :
  chunk_id sample_float_repr paper_introduction
  = chunk_id sample_float_repr paper_conclusion
  ∧ process_sources sample_float_repr ∅ ∅ [paper_introduction; paper_conclusion]
    = [source_info ∅ paper_introduction].
Proof.
  apply (X12_pdf_units_of_different_pages_share_a_citation_key
           Chunker.split_text sample_float_repr paper_fs paper_path
           ["Introduction."; "  "; "Conclusion."]
           [paper_introduction; paper_conclusion] ∅).
  - reflexivity.
  - vm_compute. reflexivity.
  - apply list_elem_of_here.
  - apply list_elem_of_further, list_elem_of_here.
  - reflexivity.
Defined.

(** ** The crawl of [process_webpage] *)





(** A crawl of depth three over three pages that link to one another in a
    cycle: every page is fetched once, and the page that has only white
    space gives no document. *)
Example crawl_of_cyclic_site :
  let result := process_webpage Chunker.split_text sample_site false 3
                                "http://s.example/" ∅ in
  (page_content <$> result.1) = ["Home."; "About."] ∧ size result.2 = 3.
Proof. split; vm_compute; reflexivity. Qed.


(** ** What [chat] makes of the citations *)

(** [chat] reads the keys ["source_type"], ["url"], ["title"], ["source"],
    ["page_number"] and ["document_id"] of a citation; [query] writes none
    of them. *)
Lemma chat_source_document registry c :
  chat_source registry c
  = mkChatSource {[ "type" := VStr "document";
                    "file" := src_file c;
                    "page" := src_page c;
                    "document_id" := VStr "";
                    "relevance" := src_relevance c ]} None.
Proof. done. Qed.

(** X14: every source [chat] returns is of type ["document"], with an
    empty ["document_id"] and without the registry entry of its document,
    whatever was retrieved: the keys [chat] tests to tell a web source and
    to find the registry entry are keys that [query] does not put in a
    citation.  The file, the page and the relevance are those of the
    citation. *)
Theorem X14_chat_sources_are_documents_without_id_or_registry_entry
    float_repr search generate question source_filter self r self' :
  chat float_repr search generate question source_filter self = (Ok r, self') →
  ∃ response,
    query float_repr search generate question source_filter self = (Ok response, self')
    ∧ chat_sources r
      = (λ c, mkChatSource {[ "type" := VStr "document";
                              "file" := src_file c;
                              "page" := src_page c;
                              "document_id" := VStr "";
                              "relevance" := src_relevance c ]} None)
          <$> sources response.
Proof.
  unfold chat.
  destruct (query float_repr search generate question source_filter self)
    as [[response|e] after]; [|done].
  intros Hchat. exists response.
  destruct (sources response) as [|c cs]; simpl in Hchat.
  - by injection Hchat as <- <-.
  - injection Hchat as <- <-. done.
Qed.

Lemma X14_chat_sources_witness :
  ∃ response,
    query sample_float_repr sample_search sample_generate sample_question None
          engine_with_document
    = (Ok response, sample_chat.2)
    ∧ chat_sources (match sample_chat.1 with
                    | Ok r => r
                    | Raise _ => mkChatResponse "" [] None
                    end)
      = (λ c, mkChatSource {[ "type" := VStr "document";
                              "file" := src_file c;
                              "page" := src_page c;
                              "document_id" := VStr "";
                              "relevance" := src_relevance c ]} None)
          <$> sources response.
Proof.
  apply (X14_chat_sources_are_documents_without_id_or_registry_entry
           sample_float_repr sample_search sample_generate sample_question None
           engine_with_document).
  vm_compute. reflexivity.
Defined.

(** ** The confidence of an engine fed by the loaders *)


Lemma relevance_fold_not_a_number acc sources c :
  c ∈ sources → number (src_relevance c) = None →
  foldl (λ acc s,
           match acc, number (src_relevance s) with
           | Some total, Some r => Some (total + r)%Qc
           | _, _ => None
           end) acc sources = None.
Proof.
  intros Hin Hc. revert acc.
  induction sources as [|c0 cs IH]; intros acc; [by apply elem_of_nil in Hin|].
  apply elem_of_cons in Hin as [<-|Hin].
  - cbn [foldl]. rewrite Hc. destruct acc; apply relevance_fold_None.
  - cbn [foldl]. by apply IH.
Qed.





Section ScoreProperties.

Variable split_text : string → list string.
Variable float_repr : Qc → string.
Variable search :
  option (gmap string value) → gmap string Document → list (string * string) →
  string → list Document.
Variable generate : string → list Document → list (string * string) → outcome string.





(** X16: a cited unit whose ["relevance"] is a string makes the query
    raise [TypeError] instead of returning: the sum of the scores cannot
    be formed.  Such a unit is stored when the caller of [add_documents]
    passes the key in the metadata. *)
Theorem X16_relevance_that_is_not_a_number_makes_query_raise
    question source_filter self resolved text d s :
  resolve_latest self source_filter = Some resolved →
  generate question (retrieved search resolved question self) (memory self) = Ok text →
  d ∈ kept_documents float_repr ∅ (retrieved search resolved question self) →
  metadata d !! "relevance" = Some (VStr s) →
  ∃ msg,
    (query float_repr search generate question source_filter self).1
    = Raise (TypeError msg).
Proof.
  intros Hres Hgen Hd Hrel. unfold query. rewrite Hres.
  unfold chain_ainvoke. fold (retrieved search resolved question self).
  rewrite Hgen. cbn [document_metadata set_memory].
  assert (source_info (document_metadata self) d
          ∈ process_sources float_repr (document_metadata self) ∅
              (retrieved search resolved question self)) as Hin.
  { rewrite process_sources_kept. apply list_elem_of_fmap. by exists d. }
  destruct (process_sources float_repr (document_metadata self) ∅
              (retrieved search resolved question self)) as [|c cs];
    [by apply elem_of_nil in Hin|].
  unfold relevance_sum.
  rewrite (relevance_fold_not_a_number _ _ _ Hin); [by eexists|].
  simpl. by rewrite Hrel.
Qed.

End ScoreProperties.



Lemma X16_relevance_witness :
  ∃ msg,
    (query sample_float_repr sample_search sample_generate "Where is Lyon?" None
           engine_with_graded_document).1
    = Raise (TypeError msg).
Proof.
  apply (X16_relevance_that_is_not_a_number_makes_query_raise
           sample_float_repr sample_search sample_generate "Where is Lyon?" None
           engine_with_graded_document None "Paris."
           (stamp "document" "doc-2" None graded_document) "high").
  - reflexivity.
  - reflexivity.
  - vm_compute. apply list_elem_of_here.
  - vm_compute. reflexivity.
Defined.


(** * The routes of the application *)

(** ** The test [needle in haystack] *)

Lemma prefix_spec (p s : string) :
  String.prefix p s = true ↔ ∃ after, s = p +:+ after.
Proof.
  split; [|intros [after ->]; apply prefix_append].
  revert s. induction p as [|a p IH]; intros s.
  - intros _. by exists s.
  - destruct s as [|b s]; [done|]. cbn [String.prefix].
    destruct (ascii_dec a b) as [->|]; [|done].
    intros [after ->]%IH. by exists after.
Qed.

Lemma contains_spec (needle haystack : string) :
  contains needle haystack = true
  ↔ ∃ before after, haystack = before +:+ needle +:+ after.
Proof.
  split.
  - induction haystack as [|c rest IH].
    + cbn [contains]. rewrite orb_false_r. intros [after Hafter]%prefix_spec.
      by exists "", after.
    + cbn [contains]. intros [[after Hafter]%prefix_spec|Hrest]%orb_true_iff.
      * by exists "", after.
      * destruct (IH Hrest) as (before & after & ->). by exists (String c before), after.
  - intros (before & after & ->). induction before as [|c before IH].
    + change ("" +:+ needle +:+ after) with (needle +:+ after).
      assert (String.prefix needle (needle +:+ after) = true) as Hp
        by apply prefix_append.
      destruct (needle +:+ after); cbn [contains]; by rewrite Hp.
    + change (String c before +:+ needle +:+ after)
        with (String c (before +:+ needle +:+ after)).
      cbn [contains]. rewrite IH. apply orb_true_r.
Qed.

Lemma ingest_file_extracts_nothing split_text fs ingestion_time env file_path self :
  (∀ d ds, process_file split_text fs file_path ≠ Ok (d :: ds)) →
  (ingest_file split_text fs ingestion_time env file_path self).2 = self.
Proof.
  intros Hnothing. unfold ingest_file.
  destruct (process_file split_text fs file_path) as [[|d ds]|]; [done| |done].
  by destruct (Hnothing d ds).
Qed.

Section RouteProperties.

Variable split_text : string → list string.
Variable float_repr : Qc → string.
Variable search :
  option (gmap string value) → gmap string Document → list (string * string) →
  string → list Document.
Variable generate : string → list Document → list (string * string) → outcome string.
Variable http_exception_str : nat → string → string.

(** X17: a question that names "this document", "the pdf" or the like, in
    any letter case and sent without a filter, is answered from the latest
    document only.  On an engine on which nothing was added since it was
    constructed the route therefore answers, with status 200, that no
    relevant information was found, with no source and confidence 0.0;
    the retriever and the model are not called and the engine is left as
    it was, whatever the collection holds. *)
Theorem X17_question_about_this_document_before_any_upload
    question source_filter rag_engine keyword before after :
  latest_document_id rag_engine = None →
  dict_truthy source_filter = false →
  keyword ∈ latest_keywords →
  lower question = before +:+ keyword +:+ after →
  process_chat float_repr search generate question source_filter rag_engine
  = (Http200 (mkChatResponse no_information_message [] (Some 0%Qc)), rag_engine).
Proof.
  intros Hlatest Hfilter Hkeyword Hquestion. unfold process_chat.
  rewrite Hfilter. cbn [negb].
  assert (existsb (λ keyword, contains keyword (lower question)) latest_keywords
          = true) as ->.
  { apply existsb_exists. exists keyword. split; [by apply list_elem_of_In|].
    apply contains_spec. by exists before, after. }
  assert (query float_repr search generate question
                (Some {[ "latest" := VBool true ]}) rag_engine
          = (Ok (mkResponse no_documents_message [] None), rag_engine)) as Hq.
  { apply query_short_circuit. by apply resolve_latest_unset. }
  by rewrite (chat_after_query float_repr search generate _ _ _ _ _ Hq).
Qed.

(** X18: the route for web pages never answers with status 400.  The
    [HTTPException] with that status, raised when [ingest_web_page]
    returns [False], is caught by the handler of the route itself, and
    the client gets status 500 with the text of that exception as
    detail; the engine is the one [ingest_web_page] left. *)
Theorem X18_failed_web_ingestion_is_answered_with_status_500
    env url rag_engine :
  let answer := ingest_webpage split_text http_exception_str env url rag_engine in
  let ingestion := ingest_web_page split_text env url rag_engine in
  answer.2 = ingestion.2
  ∧ match answer.1 with
    | Http200 message =>
        ingestion.1 = true ∧ message = "Web page ingested successfully"
    | HTTPException status_code detail =>
        ingestion.1 = false ∧ status_code = 500
        ∧ detail = http_exception_str 400 "Failed to ingest web page"
    end.
Proof.
  unfold ingest_webpage.
  by destruct (ingest_web_page split_text env url rag_engine) as [[] after].
Qed.

Lemma upload_loop_saved files results rag_engine :
  Forall (λ file, save_raises file = None) files →
  (upload_loop split_text files results rag_engine).1
  = Ok (results ++ ((λ file, mkUploadResult (filename file) "success") <$> files)).
Proof.
  intros Hsaved. revert results rag_engine.
  induction Hsaved as [|file files Hfile _ IH]; intros results rag_engine.
  - simpl. by rewrite app_nil_r.
  - cbn [upload_loop]. rewrite Hfile, IH. by rewrite <- app_assoc.
Qed.

Lemma upload_loop_nothing_extracted files results rag_engine :
  (∀ file, file ∈ files →
           ∀ d ds, process_file split_text (upload_fs file) (upload_path file)
                   ≠ Ok (d :: ds)) →
  (upload_loop split_text files results rag_engine).2 = rag_engine.
Proof.
  revert results. induction files as [|file files IH]; intros results Hnothing;
    [done|].
  cbn [upload_loop]. destruct (save_raises file); [done|].
  rewrite ingest_file_extracts_nothing
    by (apply Hnothing, list_elem_of_here).
  apply IH. intros f Hf. by apply Hnothing, list_elem_of_further.
Qed.

(** X19: when every file could be saved, the upload route answers with
    status 200 and the status ["success"] for every file, in the order of
    the request, whatever became of the ingestions: the value
    [ingest_file] returns is not looked at.  In particular, when no file
    gave a document (unsupported type, unreadable or empty file), every
    file is still reported as a success, and the engine is unchanged. *)
Theorem X19_upload_reports_success_whatever_was_ingested files rag_engine :
  Forall (λ file, save_raises file = None) files →
  (upload_files split_text files rag_engine).1
  = Http200 (mkUploadBody "Files uploaded and processed successfully"
               ((λ file, mkUploadResult (filename file) "success") <$> files))
  ∧ ((∀ file, file ∈ files →
              ∀ d ds, process_file split_text (upload_fs file) (upload_path file)
                      ≠ Ok (d :: ds)) →
     (upload_files split_text files rag_engine).2 = rag_engine).
Proof.
  intros Hsaved. unfold upload_files.
  pose proof (upload_loop_saved files [] rag_engine Hsaved) as Hresults.
  split.
  - destruct (upload_loop split_text files [] rag_engine) as [[results|e] after];
      simpl in Hresults; [|done].
    by injection Hresults as ->.
  - intros Hnothing.
    pose proof (upload_loop_nothing_extracted files [] rag_engine Hnothing) as Hengine.
    by destruct (upload_loop split_text files [] rag_engine) as [[results|e] after].
Qed.

End RouteProperties.

Lemma X17_question_witness :
  process_chat sample_float_repr sample_search sample_generate
               "Please summarise THIS Document." None fresh_engine
  = (Http200 (mkChatResponse no_information_message [] (Some 0%Qc)), fresh_engine).
Proof.
  apply (X17_question_about_this_document_before_any_upload
           sample_float_repr sample_search sample_generate
           "Please summarise THIS Document." None fresh_engine
           "this document" "please summarise " ".").
  - reflexivity.
  - reflexivity.
  - apply list_elem_of_here.
  - reflexivity.
Defined.

Lemma X19_upload_witness :
  (upload_files Chunker.split_text [program_upload] fresh_engine).1
  = Http200 (mkUploadBody "Files uploaded and processed successfully"
               ((λ file, mkUploadResult (filename file) "success")
                  <$> [program_upload]))
  ∧ ((∀ file, file ∈ [program_upload] →
              ∀ d ds, process_file Chunker.split_text (upload_fs file) (upload_path file)
                      ≠ Ok (d :: ds)) →
     (upload_files Chunker.split_text [program_upload] fresh_engine).2 = fresh_engine).
Proof.
  apply (X19_upload_reports_success_whatever_was_ingested
           Chunker.split_text [program_upload] fresh_engine).
  repeat constructor.
Defined.

(** The hypothesis of the second half of X19 holds of the program: no
    processor handles its type. *)
Example program_gives_no_document :
  ∀ file, file ∈ [program_upload] →
          ∀ d ds, process_file Chunker.split_text (upload_fs file) (upload_path file)
                  ≠ Ok (d :: ds).
Proof. by intros file ->%list_elem_of_singleton d ds. Qed.

(** A file that is ingested is reported in the same way. *)
Example upload_of_two_files :
  let answer := upload_files Chunker.split_text [program_upload; notes_upload]
                             fresh_engine in
  answer.1 = Http200 (mkUploadBody "Files uploaded and processed successfully"
                        [mkUploadResult "setup.exe" "success";
                         mkUploadResult "notes.txt" "success"])
  ∧ size (vector_store answer.2) = 1.
Proof. split; vm_compute; reflexivity. Qed.


(** * The document loader *)

Section DocumentLoaderProperties.

Variable split_text : string → list string.

(** X20: [process_document] leaves no temporary file behind once the
    upload was copied: the file is removed when the documents are
    returned and also when the type is unsupported or a reader raises.
    It is left behind in one case, when reading the upload or writing the
    copy raises: that happens inside the [with] block, before the [try]
    whose [finally] removes the file. *)
Theorem X20_temporary_file_is_removed_unless_the_copy_fails
    file metadata temp_files :
  temp_file_path file ∉ temp_files →
  unlink_raises file = None →
  (process_document split_text file metadata temp_files).2
  = match copy_raises file with
    | Some _ => {[temp_file_path file]} ∪ temp_files
    | None => temp_files
    end.
Proof.
  intros Hfresh Hunlink. unfold process_document.
  destruct (copy_raises file); [done|].
  rewrite Hunlink. simpl. set_solver.
Qed.

Lemma chunk_documents_elem text metadata d :
  d ∈ chunk_documents split_text text metadata
  ↔ ∃ chunk, chunk ∈ split_text text ∧ d = mkDocument chunk metadata.
Proof.
  unfold chunk_documents. rewrite list_elem_of_fmap.
  split; intros (chunk & H1 & H2); by exists chunk.
Qed.

Lemma process_pdf_pages_elem total_pages page_num pages metadata documents d :
  process_pdf_pages split_text total_pages page_num pages metadata = Ok documents →
  d ∈ documents →
  ∃ i page text chunk,
    pages !! i = Some page
    ∧ page_text page = Ok text
    ∧ strip_truthy text = true
    ∧ chunk ∈ split_text text
    ∧ d = mkDocument chunk
            (<["total_pages" := VInt (Z.of_nat total_pages)]>
               (<["page_number" := VInt (Z.of_nat (page_num + i) + 1)]> metadata)).
Proof.
  revert page_num documents.
  induction pages as [|page pages IH]; intros page_num documents; simpl.
  - intros [= <-]. by intros ?%elem_of_nil.
  - destruct (page_text page) as [text|] eqn:Htext; [|done].
    destruct (process_pdf_pages split_text total_pages (S page_num) pages metadata)
      as [rest|] eqn:Hrest; [|done].
    intros [= <-]. intros [Hd|Hd]%elem_of_app.
    + destruct (strip_truthy text) eqn:Hblank; [|by apply elem_of_nil in Hd].
      apply chunk_documents_elem in Hd as (chunk & Hchunk & ->).
      exists 0, page, text, chunk. by rewrite Nat.add_0_r.
    + destruct (IH (S page_num) rest Hrest Hd)
        as (i & page' & text' & chunk & Hi & Ht & Hb & Hc & ->).
      exists (S i), page', text', chunk.
      by replace (page_num + S i) with (S page_num + i) by lia.
Qed.


Lemma process_pdf_pages_ocr_fails total_pages page_num pages md i page e :
  pages !! i = Some page →
  strip_truthy (get_text page) = false →
  ocr page = Raise e →
  ∃ e', process_pdf_pages split_text total_pages page_num pages md = Raise e'.
Proof.
  revert page_num i. induction pages as [|p pages IH]; intros page_num i; [done|].
  destruct i as [|i]; simpl.
  - intros [= ->] Hblank Hocr. unfold page_text. rewrite Hblank. simpl.
    rewrite Hocr. by exists e.
  - intros Hi Hblank Hocr. destruct (page_text p) as [text|e0]; [|by exists e0].
    destruct (IH (S page_num) i Hi Hblank Hocr) as [e' ->]. by exists e'.
Qed.

(** X22: one page that cannot be read loses the whole file.  When the
    OCR of a page without text layer raises, [process_document] raises
    for the PDF and returns no document, not even of the pages that have
    a text layer. *)
Theorem X22_pdf_with_a_page_whose_ocr_fails_gives_no_document
    file md temp_files pages i page e :
  lower (document_suffix file) = ".pdf" →
  copy_raises file = None →
  pdf_document file = Ok pages →
  pages !! i = Some page →
  strip_truthy (get_text page) = false →
  ocr page = Raise e →
  ∃ e', (process_document split_text file md temp_files).1 = Raise e'.
Proof.
  intros Hsuffix Hcopy Hpages Hi Hblank Hocr. unfold process_document.
  rewrite Hsuffix, Hcopy. simpl. unfold process_pdf. rewrite Hpages.
  destruct (process_pdf_pages_ocr_fails (length pages) 0 pages md i page e
              Hi Hblank Hocr) as [e' ->].
  destruct (unlink_raises file) as [e''|]; [by exists e''|by exists e'].
Qed.

Lemma process_document_locators file md temp_files documents temp_files' d :
  process_document split_text file md temp_files = (Ok documents, temp_files') →
  d ∈ documents →
  metadata d !! "file" = md !! "file"
  ∧ metadata d !! "chunk" = md !! "chunk".
Proof.
  unfold process_document.
  destruct (copy_raises file); [done|].
  destruct (unlink_raises file); [done|].
  intros [= Hdocs _] Hd. revert Hdocs.
  destruct (String.eqb _ ".pdf").
  { unfold process_pdf. destruct (pdf_document file) as [pages|]; [|done].
    intros Hproc.
    destruct (process_pdf_pages_elem _ _ _ _ _ _ Hproc Hd)
      as (i & page & text & chunk & _ & _ & _ & _ & ->).
    simpl. by rewrite !lookup_insert_ne by done. }
  destruct (_ || _).
  { unfold process_docx. destruct (docx_document file); [|done].
    intros [= <-]. by apply chunk_documents_elem in Hd as (chunk & _ & ->). }
  destruct (String.eqb _ ".txt").
  { unfold process_text. destruct (file_text file); [|done].
    intros [= <-]. by apply chunk_documents_elem in Hd as (chunk & _ & ->). }
  destruct (String.eqb _ ".md"); [|done].
  unfold process_markdown. destruct (file_text file); [|done].
  destruct (markdown_raises file); [done|].
  intros [= <-]. by apply chunk_documents_elem in Hd as (chunk & _ & ->).
Qed.

End DocumentLoaderProperties.

Lemma process_sources_seen float_repr registry seen docs :
  (∀ u, u ∈ docs → chunk_id float_repr u ∈ seen) →
  process_sources float_repr registry seen docs = [].
Proof.
  induction docs as [|u docs IH]; intros Hseen; [done|]. simpl.
  rewrite bool_decide_eq_true_2 by apply Hseen, list_elem_of_here.
  apply IH. intros u' Hu'. by apply Hseen, list_elem_of_further.
Qed.

(** X23: the units of an uploaded document have one citation key.  The
    documents of [process_document] carry the caller's metadata and no
    chunk locator of their own, and the key by which [query] de-duplicates
    its citations reads the file and the chunk only; so when the units
    that [add_documents] stores for one upload are retrieved, however many
    of them and from whichever pages, the answer cites the first one
    only. *)
Theorem X23_units_of_an_uploaded_document_are_cited_once
    split_text float_repr file md temp_files documents temp_files'
    doc_id registry first rest :
  process_document split_text file md temp_files = (Ok documents, temp_files') →
  (∀ u, u ∈ first :: rest →
        ∃ d, d ∈ documents ∧ u = stamp "document" doc_id (Some md) d) →
  process_sources float_repr registry ∅ (first :: rest) = [source_info registry first].
Proof.
  intros Hproc Hunits.
  assert (∀ u, u ∈ first :: rest →
               metadata u !! "file" = md !! "file"
               ∧ metadata u !! "chunk" = md !! "chunk") as Hloc.
  { intros u (d & Hd & ->)%Hunits.
    destruct (process_document_locators split_text file md temp_files documents
                temp_files' d Hproc Hd) as [Hfile Hchunk].
    rewrite !stamp_lookup. simpl. rewrite Hfile, Hchunk.
    split.
    - destruct (md !! "file"); [done|]. by repeat case_decide.
    - destruct (md !! "chunk"); [done|]. by repeat case_decide. }
  assert (∀ u, u ∈ first :: rest → chunk_id float_repr u = chunk_id float_repr first)
    as Hkey.
  { intros u Hu. unfold chunk_id.
    destruct (Hloc u Hu) as [-> ->].
    by destruct (Hloc first (list_elem_of_here _ _)) as [-> ->]. }
  simpl. rewrite bool_decide_eq_false_2 by apply not_elem_of_empty.
  f_equal. apply process_sources_seen. intros u Hu.
  rewrite (Hkey u) by by apply list_elem_of_further.
  apply elem_of_union_l. by apply elem_of_singleton.
Qed.

Lemma X20_temporary_file_witness :
  (process_document Chunker.split_text interrupted_upload caller_metadata ∅).2
  = match copy_raises interrupted_upload with
    | Some _ => {[temp_file_path interrupted_upload]} ∪ ∅
    | None => ∅
    end.
Proof.
  apply (X20_temporary_file_is_removed_unless_the_copy_fails
           Chunker.split_text interrupted_upload caller_metadata ∅).
  - apply not_elem_of_empty.
  - reflexivity.
Defined.

(** The temporary file of the scanned PDF is removed, and the page that
    was read by OCR is numbered as the second of two. *)
Example scanned_pdf_is_read_and_removed :
  let result := process_document Chunker.split_text scanned_pdf caller_metadata
                                 {["/tmp/other"]} in
  result.2 = {["/tmp/other"]}
  ∧ ((λ d, (page_content d, metadata d !! "page_number")) <$>
       match result.1 with Ok documents => documents | Raise _ => [] end)
    = [("Typed page.", Some (VInt 1)); ("Scanned page.", Some (VInt 2))].
Proof.
  split; [|vm_compute; reflexivity].
  apply set_eq. intros x. vm_compute. set_solver.
Qed.


Lemma X22_pdf_without_ocr_witness :
  ∃ e', (process_document Chunker.split_text scanned_pdf_without_ocr caller_metadata ∅).1
        = Raise e'.
Proof.
  apply (X22_pdf_with_a_page_whose_ocr_fails_gives_no_document
           Chunker.split_text scanned_pdf_without_ocr caller_metadata ∅
           [mkPdfPage "Typed page." (Ok "never read");
            mkPdfPage " " (Raise (OtherError "tesseract is not installed"))]
           1 (mkPdfPage " " (Raise (OtherError "tesseract is not installed")))
           (OtherError "tesseract is not installed")).
  - reflexivity.
  - reflexivity.
  - reflexivity.
  - reflexivity.
  - reflexivity.
  - reflexivity.
Defined.

Lemma X23_units_of_an_uploaded_document_witness :
  process_sources sample_float_repr ∅ ∅
    [stamp "document" "doc-7" (Some caller_metadata)
       (mkDocument "Scanned page."
          (<["total_pages" := VInt 2]>
             (<["page_number" := VInt 2]> caller_metadata)));
     stamp "document" "doc-7" (Some caller_metadata)
       (mkDocument "Typed page."
          (<["total_pages" := VInt 2]>
             (<["page_number" := VInt 1]> caller_metadata)))]
  = [source_info ∅
       (stamp "document" "doc-7" (Some caller_metadata)
          (mkDocument "Scanned page."
             (<["total_pages" := VInt 2]>
                (<["page_number" := VInt 2]> caller_metadata))))].
Proof.
  apply (X23_units_of_an_uploaded_document_are_cited_once
           Chunker.split_text sample_float_repr scanned_pdf caller_metadata ∅
           [mkDocument "Typed page."
              (<["total_pages" := VInt 2]>
                 (<["page_number" := VInt 1]> caller_metadata));
            mkDocument "Scanned page."
              (<["total_pages" := VInt 2]>
                 (<["page_number" := VInt 2]> caller_metadata))]
           ∅ "doc-7" ∅).
  - vm_compute. reflexivity.
  - intros u [-> | ->%list_elem_of_singleton]%elem_of_cons.
    + eexists. split; [apply list_elem_of_further, list_elem_of_here|reflexivity].
    + eexists. split; [apply list_elem_of_here|reflexivity].
Defined.


(** * The web search and the loggers *)

(** X24: [_search_web] never raises and returns at most four results: at
    most three organic results, in the order of the API, followed by the
    knowledge graph when there is one.  Every result is tagged with the
    source ["web"] and has a title, empty when the API gave none; a failed
    request gives the empty list. *)
Theorem X24_web_search_returns_at_most_four_tagged_results response :
  let results := _search_web response in
  (length results ≤ 4)%nat
  ∧ (∀ result, result ∈ results →
               result !! "source" = Some (VStr "web") ∧ is_Some (result !! "title"))
  ∧ match response with
    | Ok data =>
        results
        = (organic_result <$> take 3 (default [] (organic data)))
          ++ (knowledge_graph_result <$> option_list (knowledgeGraph data))
    | Raise _ => results = []
    end.
Proof.
  destruct response as [[found kg]|e]; simpl.
  2:{ split; [lia|]. split; [by intros result ?%elem_of_nil|done]. }
  assert (∀ result,
            result ∈ organic_result <$> take 3 (default [] found) →
            result !! "source" = Some (VStr "web") ∧ is_Some (result !! "title"))
    as Horganic.
  { intros result (r & -> & _)%list_elem_of_fmap. split; [by vm_compute|].
    unfold organic_result. rewrite lookup_insert_eq. by eexists. }
  assert (length (organic_result <$> take 3 (default [] found)) ≤ 3)%nat as Hlen.
  { rewrite length_fmap, length_take. lia. }
  assert (match found with
          | Some found => organic_result <$> take 3 found
          | None => []
          end = organic_result <$> take 3 (default [] found)) as ->
    by by destruct found.
  destruct kg as [kg|]; simpl.
  - split; [rewrite length_app; simpl; lia|].
    split; [|done].
    intros result [Hresult|Hresult]%elem_of_app; [by apply Horganic|].
    apply list_elem_of_singleton in Hresult as ->.
    split; [by vm_compute|].
    unfold knowledge_graph_result. rewrite lookup_insert_eq. by eexists.
  - rewrite app_nil_r. split; [lia|]. by split.
Qed.

(** Five organic results and a knowledge graph give four results. *)
Example search_of_sample_data :
  (λ result, result !! "title") <$> _search_web (Ok sample_serper_data)
  = [Some (VStr "One"); Some (VStr "Two"); Some (VStr ""); Some (VStr "Paris")].
Proof. vm_compute. reflexivity. Qed.





(** The log file of [app.main]. *)
Example log_file_of_main :
  "logs/" +:+ replace_dots "app.main" +:+ ".log" = "logs/app-main.log".
Proof. reflexivity. Qed.


(** * Rows as markdown *)

Lemma join_elem sep x (l : list string) :
  x ∈ l → ∃ before after, join sep l = before +:+ x +:+ after.
Proof.
  induction l as [|y l IH]; [by intros ?%elem_of_nil|].
  intros [->|Hx]%elem_of_cons.
  - destruct l as [|z l].
    + exists "", "". simpl. by rewrite append_empty_r.
    + exists "", (sep +:+ join sep (z :: l)). done.
  - destruct l as [|z l]; [by apply elem_of_nil in Hx|].
    destruct (IH Hx) as (before & after & Hjoin).
    exists (y +:+ sep +:+ before), after.
    change (join sep (y :: z :: l)) with (y +:+ sep +:+ join sep (z :: l)).
    rewrite Hjoin. by rewrite !append_assoc.
Qed.

Lemma elem_of_map {A B} (f : A → B) (l : list A) (x : A) :
  x ∈ l → f x ∈ map f l.
Proof.
  induction 1 as [x l|x y l _ IH]; simpl;
    [apply list_elem_of_here|by apply list_elem_of_further].
Qed.

(** X9: [dict_to_markdown] drops no item of the dictionary: for every
    key, the text contains the line of that key at the indentation of the
    call, [- **key**: value] for a value that is neither a dictionary nor a
    list and [- **key**:] otherwise. *)
Theorem X9_every_item_of_a_row_is_rendered format data indent key value :
  (key, value) ∈ data →
  ∃ before after,
    dict_to_markdown format data indent
    = before +:+ item_line format indent key value +:+ after.
Proof.
  intros Hin. unfold dict_to_markdown. cbn [markdown_of].
  apply join_elem. apply elem_of_concat.
  eexists. split; [|exact (elem_of_map _ data (key, value) Hin)].
  simpl. destruct value; apply list_elem_of_here.
Qed.

Lemma X9_every_item_witness :
  ∃ before after,
    dict_to_markdown sample_format sample_row 1
    = before +:+ item_line sample_format 1 "tags"
                   (JList [JAtom (VStr "x"); JDict [("k", JAtom (VBool true))]])
      +:+ after.
Proof.
  apply (X9_every_item_of_a_row_is_rendered sample_format sample_row 1 "tags"
           (JList [JAtom (VStr "x"); JDict [("k", JAtom (VBool true))]])).
  apply list_elem_of_further, list_elem_of_further, list_elem_of_here.
Defined.

(** The rendering of the sample row.  The item of a list that is a
    dictionary is written at the indentation of the other items, without
    a dash of its own. *)
Example markdown_of_sample_row :
  dict_to_markdown sample_format sample_row 0
  = join nl ["- **id**: 7";
             "- **name**: Ada";
             "- **tags**:";
             "  - x";
             "  - **k**: True";
             "- **address**:";
             "  - **city**: Paris"].
Proof. vm_compute. reflexivity. Qed.


(** * Citations of the chunks of one text *)

Lemma str_of_Z_inj (a b : Z) : str_of_Z a = str_of_Z b → a = b.
Proof.
  unfold str_of_Z. intros Heq.
  assert (∀ z, NilZero.int_of_string (NilZero.string_of_int (Z.to_int z))
               = Some (Z.to_int z)) as Hparse.
  { intros z. apply NilZero.isi; destruct z; simpl; try done;
      intros [= H]; by apply DecimalPos.Unsigned.to_uint_nonnil in H. }
  rewrite <- (DecimalZ.of_to a), <- (DecimalZ.of_to b). f_equal.
  apply (inj Some). by rewrite <- !Hparse, Heq.
Qed.

Lemma append_inj_r (p a b : string) : p +:+ a = p +:+ b → a = b.
Proof.
  induction p as [|c p IH]; [done|].
  change (String c p +:+ a) with (String c (p +:+ a)).
  change (String c p +:+ b) with (String c (p +:+ b)).
  intros [= H]. by apply IH.
Qed.

Lemma kept_documents_all float_repr seen docs :
  NoDup (chunk_id float_repr <$> docs) →
  (∀ d, d ∈ docs → chunk_id float_repr d ∉ seen) →
  kept_documents float_repr seen docs = docs.
Proof.
  revert seen. induction docs as [|d docs IH]; intros seen Hnd Hnew; [done|].
  simpl in *. apply list.NoDup_cons in Hnd as [Hd Hnd].
  rewrite bool_decide_eq_false_2 by apply Hnew, list_elem_of_here.
  f_equal. apply IH; [done|].
  intros d' Hd' [Heq%elem_of_singleton|Hs]%elem_of_union.
  - apply Hd, list_elem_of_fmap. by exists d'.
  - by apply (Hnew d' (list_elem_of_further _ _ _ Hd')).
Qed.

(** X27: the chunks of one text never share a citation key.  The
    documents [split_text_into_documents] makes (of a text file, a
    Markdown file, a Word file) are numbered from 0 in ["chunk"] and have
    the same ["file"], so the key [file_chunk] of [query] is different
    for any two of them, and a retrieval that returns them all is cited
    in full, one citation per chunk and in order. *)
Theorem X27_chunks_of_one_text_are_cited_separately
    split_text float_repr text md registry :
  let documents := split_text_into_documents split_text text md in
  (∀ i j d1 d2,
     documents !! i = Some d1 → documents !! j = Some d2 →
     chunk_id float_repr d1 = chunk_id float_repr d2 → i = j)
  ∧ process_sources float_repr registry ∅ documents
    = source_info registry <$> documents.
Proof.
  intros documents.
  assert (∀ i d, documents !! i = Some d →
                 chunk_id float_repr d
                 = str float_repr (default (VStr "") (md !! "file"))
                   +:+ "_" +:+ str_of_Z (Z.of_nat i)) as Hkey.
  { intros i d Hd. unfold documents, split_text_into_documents in Hd.
    rewrite list_lookup_imap in Hd.
    destruct (split_text text !! i) as [chunk|]; [|done].
    injection Hd as <-. unfold chunk_id. simpl.
    rewrite lookup_insert_ne by done. rewrite lookup_insert_ne by done.
    rewrite lookup_insert_ne by done. by rewrite lookup_insert_eq. }
  assert (∀ i j d1 d2,
            documents !! i = Some d1 → documents !! j = Some d2 →
            chunk_id float_repr d1 = chunk_id float_repr d2 → i = j) as Hinj.
  { intros i j d1 d2 H1 H2. rewrite (Hkey i d1 H1), (Hkey j d2 H2).
    intros Heq%append_inj_r%append_inj_r%str_of_Z_inj. lia. }
  split; [done|].
  rewrite process_sources_kept. f_equal. apply kept_documents_all.
  - apply NoDup_alt. intros i j key.
    rewrite !list_lookup_fmap.
    destruct (documents !! i) as [d1|] eqn:H1; [|done].
    destruct (documents !! j) as [d2|] eqn:H2; [|done].
    simpl. intros [= <-] [= Heq]. by apply (Hinj i j d1 d2).
  - intros d _. apply not_elem_of_empty.
Qed.

(** * A question about the file that was just uploaded *)

Lemma resolve_latest_set self id :
  latest_document_id self = Some id →
  id ≠ "" →
  resolve_latest self (Some {[ "latest" := VBool true ]})
  = Some (Some {[ "document_id" := VStr id ]}).
Proof.
  intros Hlatest Hid. unfold resolve_latest, get_truthy. rewrite Hlatest.
  assert (truthy (VStr id) = true) as ->.
  { simpl. apply negb_true_iff. by apply String.eqb_neq. }
  simpl. rewrite bool_decide_eq_false_2 by apply map_non_empty_singleton.
  by rewrite lookup_singleton_eq.
Qed.

Section UploadThenChat.

Variable split_text : string → list string.
Variable float_repr : Qc → string.
Variable search :
  option (gmap string value) → gmap string Document → list (string * string) →
  string → list Document.
Variable generate : string → list Document → list (string * string) → outcome string.

(** X26: after the upload of a file that gave at least one document, a
    question that names "this document" (or the like) and carries no
    filter is the question asked with the filter
    [{"document_id": <id of the upload>}]: the latest document is the one
    [add_documents] registered for the file, also when the write to the
    vector store failed. *)
Theorem X26_question_about_this_document_after_an_upload
    file rag_engine question source_filter keyword before after d ds :
  save_raises file = None →
  process_file split_text (upload_fs file) (upload_path file) = Ok (d :: ds) →
  uuid4 (upload_env file) ≠ "" →
  dict_truthy source_filter = false →
  keyword ∈ latest_keywords →
  lower question = before +:+ keyword +:+ after →
  let uploaded := (upload_files split_text [file] rag_engine).2 in
  latest_document_id uploaded = Some (uuid4 (upload_env file))
  ∧ process_chat float_repr search generate question source_filter uploaded
    = process_chat float_repr search generate question
        (Some {[ "document_id" := VStr (uuid4 (upload_env file)) ]}) uploaded.
Proof.
  intros Hsave Hproc Hid Hfilter Hkeyword Hquestion uploaded.
  assert (latest_document_id uploaded = Some (uuid4 (upload_env file))) as Hlatest.
  { unfold uploaded, upload_files. cbn [upload_loop]. rewrite Hsave.
    cbn [upload_loop fst snd]. unfold ingest_file. rewrite Hproc.
    match goal with
    | |- context [add_documents ?env ?docs ?st ?m rag_engine] =>
        pose proof (add_documents_registry env docs st m rag_engine) as [_ Hl];
        destruct (add_documents env docs st m rag_engine) as [[[]|?] after']
    end; simpl in *; done. }
  split; [done|].
  unfold process_chat. rewrite Hfilter. cbn [negb].
  assert (existsb (λ keyword, contains keyword (lower question)) latest_keywords
          = true) as ->.
  { apply existsb_exists. exists keyword. split; [by apply list_elem_of_In|].
    apply contains_spec. by exists before, after. }
  assert (dict_truthy (Some {[ "document_id" := VStr (uuid4 (upload_env file)) ]})
          = true) as ->.
  { simpl. apply negb_true_iff, bool_decide_eq_false_2, map_non_empty_singleton. }
  cbn [negb]. unfold chat, query.
  by rewrite (resolve_latest_set uploaded _ Hlatest Hid), resolve_latest_by_id.
Qed.

End UploadThenChat.

Lemma X26_question_after_upload_witness :
  let uploaded := (upload_files Chunker.split_text [notes_upload] fresh_engine).2 in
  latest_document_id uploaded = Some (uuid4 (upload_env notes_upload))
  ∧ process_chat sample_float_repr sample_search sample_generate
                 "What does this file say?" None uploaded
    = process_chat sample_float_repr sample_search sample_generate
                   "What does this file say?"
                   (Some {[ "document_id" := VStr (uuid4 (upload_env notes_upload)) ]})
                   uploaded.
Proof.
  apply (X26_question_about_this_document_after_an_upload
           Chunker.split_text sample_float_repr sample_search sample_generate
           notes_upload fresh_engine "What does this file say?" None
           "this file" "what does " " say?"
           (mkDocument "Paris is the capital of France."
              (<["chunk_size" := VInt 31]>
                 (<["chunk" := VInt 0]> (file_metadata "txt" notes_path))))
           []).
  - reflexivity.
  - vm_compute. reflexivity.
  - discriminate.
  - reflexivity.
  - apply list_elem_of_further, list_elem_of_further, list_elem_of_further,
      list_elem_of_further, list_elem_of_here.
  - reflexivity.
Defined.
